(** * OpenRAVE inverse-kinematics interface and plugin factories

    A shallow embedding of

    - [rave/iksolver.h]: [IkSolverBase::Parameterization];
    - [plugins/ikfastsolvers/ikfastsolvers.cpp]: [CreateInterfaceValidated]
      and [GetPluginAttributesValidated];
    - [plugins/rmanipulation/rmanipulation.cpp]: [CreateInterface] and
      [GetPluginAttributes];

    followed by a model of the solving contract that [IkSolverBase] only
    declares (its implementation, [ikbase.h], is not among the sources).

    [dReal] is the build's real type (float or double).  It is embedded as
    the exact rationals: values are stored, moved and compared, and rounding
    is outside the model. *)

From Stdlib Require Import ZArith QArith Qround Qabs List String Ascii Bool Lia.
From Stdlib Require Import Sorted.
Import ListNotations.

Open Scope string_scope.

Definition dReal : Type := Q.

(* ================================================================== *)
(** ** rave/iksolver.h *)

Module IkSolverBase.

(** [Vector], [Transform] and [RAY] come from the math headers, which
    declare them as plain aggregates: a vector of four reals, a rotation
    slot with a translation slot, and a ray built by [RAY(pos,dir)]. *)
Record Vector : Type := mkVector { vx : dReal; vy : dReal; vz : dReal; vw : dReal }.

Record Transform : Type := mkTransform { rot : Vector; trans : Vector }.

Record RAY : Type := mkRAY { pos : Vector; dir : Vector }.

(** The default [Transform()] is the identity: unit quaternion, zero
    translation. *)
Definition Transform_default : Transform :=
  {| rot := mkVector 1 0 0 0; trans := mkVector 0 0 0 0 |}.

Inductive Type_ : Type :=
| Type_None
| Type_Transform6D
| Type_Rotation3D
| Type_Translation3D
| Type_Direction2D
| Type_Ray4D.

(** The numeric value of each enumerator. *)
Definition Type_value (t : Type_) : Z :=
  match t with
  | Type_None => 0
  | Type_Transform6D => 1
  | Type_Rotation3D => 2
  | Type_Translation3D => 3
  | Type_Direction2D => 4
  | Type_Ray4D => 5
  end.

Definition Type_eqb (a b : Type_) : bool := Z.eqb (Type_value a) (Type_value b).

Record Parameterization : Type :=
  mkParameterization { _transform : Transform; _type : Type_ }.

(** [Parameterization() : _type(Type_None) {}] *)
Definition Parameterization_new : Parameterization :=
  {| _transform := Transform_default; _type := Type_None |}.

(** Each setter is a member function mutating [*this]; here it maps the
    old object to the new one. *)
Definition SetTransform (t : Transform) (p : Parameterization) : Parameterization :=
  {| _transform := t; _type := Type_Transform6D |}.

Definition SetRotation (quaternion : Vector) (p : Parameterization) : Parameterization :=
  {| _transform := {| rot := quaternion; trans := trans (_transform p) |};
     _type := Type_Rotation3D |}.

Definition SetTranslation (tr : Vector) (p : Parameterization) : Parameterization :=
  {| _transform := {| rot := rot (_transform p); trans := tr |};
     _type := Type_Translation3D |}.

Definition SetDirection (d : Vector) (p : Parameterization) : Parameterization :=
  {| _transform := {| rot := d; trans := trans (_transform p) |};
     _type := Type_Direction2D |}.

(** [_transform.trans = ray.pos; _transform.rot = ray.dir;] *)
Definition SetRay (ray : RAY) (p : Parameterization) : Parameterization :=
  let t1 := {| rot := rot (_transform p); trans := pos ray |} in
  let t2 := {| rot := dir ray; trans := trans t1 |} in
  {| _transform := t2; _type := Type_Ray4D |}.

(** The converting constructors default-construct the members and then
    call the setter. *)
Definition Parameterization_of_Transform (t : Transform) : Parameterization :=
  SetTransform t {| _transform := Transform_default; _type := Type_None |}.

Definition Parameterization_of_RAY (r : RAY) : Parameterization :=
  SetRay r {| _transform := Transform_default; _type := Type_None |}.

Definition GetType (p : Parameterization) : Type_ := _type p.
Definition GetTransform (p : Parameterization) : Transform := _transform p.
Definition GetRotation (p : Parameterization) : Vector := rot (_transform p).
Definition GetTranslation (p : Parameterization) : Vector := trans (_transform p).
Definition GetDirection (p : Parameterization) : Vector := rot (_transform p).
Definition GetRay (p : Parameterization) : RAY :=
  mkRAY (trans (_transform p)) (rot (_transform p)).

End IkSolverBase.

(* ================================================================== *)
(** ** Formatted extraction from [std::istream]

    The factories read their arguments with [operator>>].  A stream is its
    unread characters and the two state bits the code can observe. *)

Module IStream.

Record istream : Type :=
  mkIstream { buf : string; eofbit : bool; failbit : bool }.

Definition good (s : istream) : bool := negb (eofbit s) && negb (failbit s).

(** [!!sinput] is [!sinput.fail()]. *)
Definition ok (s : istream) : bool := negb (failbit s).

(** A [std::stringstream] freshly built over [text]. *)
Definition stringstream (text : string) : istream :=
  {| buf := text; eofbit := false; failbit := false |}.

(** [isspace] of the "C" locale: space, and the controls 9 to 13. *)
Definition isspace (c : ascii) : bool :=
  let n := nat_of_ascii c in
  Nat.eqb n 32 || (Nat.leb 9 n && Nat.leb n 13).

Fixpoint skipws (s : string) : string :=
  match s with
  | EmptyString => EmptyString
  | String c r => if isspace c then skipws r else s
  end.

(** Characters up to the next whitespace, and what follows them. *)
Fixpoint take_word (s : string) : string * string :=
  match s with
  | EmptyString => (EmptyString, EmptyString)
  | String c r =>
      if isspace c then (EmptyString, s)
      else let (w, rest) := take_word r in (String c w, rest)
  end.

Definition is_empty (s : string) : bool :=
  match s with EmptyString => true | String _ _ => false end.

(** The sentry every formatted extraction starts with: a stream that is
    not good only gains [failbit]; otherwise leading whitespace is
    skipped, and running into the end sets [eofbit] and [failbit]. *)
Definition sentry (s : istream) : bool * istream :=
  if good s then
    let b := skipws (buf s) in
    if is_empty b
    then (false, {| buf := b; eofbit := true; failbit := true |})
    else (true, {| buf := b; eofbit := false; failbit := false |})
  else (false, {| buf := buf s; eofbit := eofbit s; failbit := true |}).

(** [is >> str] for [std::string]: the target keeps its value when the
    sentry fails. *)
Definition extract_string (s : istream) (old : string) : string * istream :=
  let (entered, s1) := sentry s in
  if entered then
    let (w, rest) := take_word (buf s1) in
    (w, {| buf := rest; eofbit := is_empty rest; failbit := false |})
  else (old, s1).

Section Numeric.

(** The library's numeric conversion, entered on a first character that
    is not whitespace, with the target's current value: the value
    stored, the characters left, and whether the conversion succeeded. *)
Variable num_get : string -> dReal -> dReal * string * bool.

(** [is >> x] for [dReal]. *)
Definition extract_real (s : istream) (old : dReal) : dReal * istream :=
  let (entered, s1) := sentry s in
  if entered then
    let '(v, rest, converted) := num_get (buf s1) old in
    (v, {| buf := rest; eofbit := is_empty rest; failbit := negb converted |})
  else (old, s1).

End Numeric.

(** [::tolower] of the "C" locale, and [std::transform] of it over a
    string. *)
Definition tolower (c : ascii) : ascii :=
  let n := nat_of_ascii c in
  if Nat.leb 65 n && Nat.leb n 90 then ascii_of_nat (n + 32) else c.

Fixpoint transform_tolower (s : string) : string :=
  match s with
  | EmptyString => EmptyString
  | String c r => String (tolower c) (transform_tolower r)
  end.

(** A plain unsigned decimal reader ([digits] with an optional
    [.digits]), one possible [num_get]; used to run the factories on
    concrete keys. *)
Definition digit_of (c : ascii) : option Z :=
  let n := nat_of_ascii c in
  if Nat.leb 48 n && Nat.leb n 57 then Some (Z.of_nat (n - 48)) else None.

Fixpoint read_digits (s : string) (acc : Z) (len : nat) : Z * nat * string :=
  match s with
  | EmptyString => (acc, len, s)
  | String c r =>
      match digit_of c with
      | Some d => read_digits r (10 * acc + d)%Z (S len)
      | None => (acc, len, s)
      end
  end.

Definition decimal_num_get (s : string) (old : dReal) : dReal * string * bool :=
  let '(ip, n1, r1) := read_digits s 0%Z 0%nat in
  match r1 with
  | String "." r2 =>
      let '(fp, n2, r3) := read_digits r2 0%Z 0%nat in
      if Nat.eqb (n1 + n2) 0 then (old, s, false)
      else (inject_Z ip + inject_Z fp / inject_Z (10 ^ Z.of_nat n2), r3, true)
  | _ =>
      if Nat.eqb n1 0 then (old, s, false) else (inject_Z ip, r1, true)
  end.

(** Whitespace only, and no whitespace at all. *)
Fixpoint all_space (s : string) : bool :=
  match s with
  | EmptyString => true
  | String c r => isspace c && all_space r
  end.

Fixpoint no_space (s : string) : bool :=
  match s with
  | EmptyString => true
  | String c r => negb (isspace c) && no_space r
  end.

End IStream.

(* ================================================================== *)
(** ** Plugin interface types

    The interface enumeration and [PLUGININFO] are declared by the core
    headers.  The factories distinguish two enumerators; any other one
    reaches [default:]. *)

Inductive InterfaceType : Type :=
| PT_ProblemInstance
| PT_InverseKinematicsSolver
| PT_Other (tag : Z).

Definition PluginType : Type := InterfaceType.

Definition InterfaceType_eq_dec (a b : InterfaceType) : {a = b} + {a <> b}.
Proof. decide equality. apply Z.eq_dec. Defined.

(** [PLUGININFO::interfacenames]: for each interface type, the names pushed
    so far ([operator[]] creates the empty vector on first use). *)
Record PLUGININFO : Type := mkPLUGININFO { interfacenames : InterfaceType -> list string }.

Definition PLUGININFO_new : PLUGININFO := {| interfacenames := fun _ => [] |}.

Definition push_back (t : InterfaceType) (name : string) (info : PLUGININFO) : PLUGININFO :=
  {| interfacenames := fun u =>
       if InterfaceType_eq_dec u t
       then (interfacenames info u ++ [name])%list
       else interfacenames info u |}.

(** What a factory call does: return a pointer, or leave by an exception. *)
Inductive Outcome (A : Type) : Type :=
| Returned (a : A)
| Thrown (what : string).
Arguments Returned {A} a.
Arguments Thrown {A} what.

(* ================================================================== *)
(** ** plugins/ikfastsolvers/ikfastsolvers.cpp *)

Module IkFastSolvers.

(** The generated kernels, one namespace each. *)
Inductive Mechanism : Type :=
| barrettwam | pa10 | puma | pr2_head | pr2_head_torso
| pr2_leftarm | pr2_leftarm_torso | pr2_rightarm | pr2_rightarm_torso
| schunk_lwa3 | katana5d.

(** What each generated header exports besides [ik] itself. *)
Record KernelInfo : Type := mkKernelInfo {
  getNumFreeParameters : nat;
  getFreeParameters : nat -> Z;
  getNumJoints : Z;
  getIKType : Z;
  getKinematicsHash : string
}.

Section Factory.

Variable Env : Type.
Variable num_get : string -> dReal -> dReal * string * bool.
Variable kernel : Mechanism -> KernelInfo.
(** Solvers that [IKFastProblem::CreateIkSolver] finds among the loaded
    libraries. *)
Variable LibrarySolver : Type.
Variable CreateIkSolver : string -> dReal -> option Env -> option LibrarySolver.

(** The arguments an [IkFastSolver] is constructed with. *)
Record IkFastSolver : Type := mkIkFastSolver {
  _pfnik : Mechanism;
  _vfreeparams : list Z;
  _fFreeInc : dReal;
  _nTotalJoints : Z;
  _iktype : Z;
  _kinematicshash : string;
  _penv : option Env
}.

Inductive Interface : Type :=
| of_IkFastSolver (s : IkFastSolver)
| of_LibrarySolver (s : LibrarySolver)
| of_IKFastProblem (penv : option Env).

Definition InterfaceBasePtr : Type := option Interface.

(** The body shared by every mechanism branch: copy the free-parameter
    indices, then construct the solver. *)
Definition new_IkFastSolver (m : Mechanism) (freeinc : dReal) (penv : option Env)
  : InterfaceBasePtr :=
  let vfree := map (getFreeParameters (kernel m))
                   (seq 0 (getNumFreeParameters (kernel m))) in
  Some (of_IkFastSolver
          {| _pfnik := m; _vfreeparams := vfree; _fFreeInc := freeinc;
             _nTotalJoints := getNumJoints (kernel m);
             _iktype := getIKType (kernel m);
             _kinematicshash := getKinematicsHash (kernel m);
             _penv := penv |}).

(** The literal [0.04f]. *)
Definition freeinc_default : dReal := 4 # 100.

Definition CreateInterfaceValidated
    (type : InterfaceType) (interfacename : string)
    (sinput : IStream.istream) (penv : option Env)
  : InterfaceBasePtr * IStream.istream :=
  let freeinc := freeinc_default in
  match type with
  | PT_InverseKinematicsSolver =>
      if String.eqb interfacename "ikfast" then
        let (ikfastname, sinput) := IStream.extract_string sinput "" in
        if IStream.ok sinput then
          let (freeinc, sinput) := IStream.extract_real num_get sinput freeinc in
          match CreateIkSolver ikfastname freeinc penv with
          | Some psolver => (Some (of_LibrarySolver psolver), sinput)
          | None => (None, sinput)
          end
        else (None, sinput)
      else
        let (freeinc, sinput) := IStream.extract_real num_get sinput freeinc in
        if String.eqb interfacename "wam7ikfast" then
          (new_IkFastSolver barrettwam freeinc penv, sinput)
        else if String.eqb interfacename "pa10ikfast" then
          (new_IkFastSolver pa10 freeinc penv, sinput)
        else if String.eqb interfacename "pumaikfast" then
          (new_IkFastSolver puma freeinc penv, sinput)
        else if String.eqb interfacename "ikfast_pr2_head" then
          (new_IkFastSolver pr2_head freeinc penv, sinput)
        else if String.eqb interfacename "ikfast_pr2_head_torso" then
          (new_IkFastSolver pr2_head_torso freeinc penv, sinput)
        else if String.eqb interfacename "ikfast_pr2_rightarm" then
          (new_IkFastSolver pr2_rightarm freeinc penv, sinput)
        else if String.eqb interfacename "ikfast_pr2_rightarm_torso" then
          (new_IkFastSolver pr2_rightarm_torso freeinc penv, sinput)
        else if String.eqb interfacename "ikfast_pr2_leftarm" then
          (new_IkFastSolver pr2_leftarm freeinc penv, sinput)
        else if String.eqb interfacename "ikfast_pr2_leftarm_torso" then
          (new_IkFastSolver pr2_leftarm_torso freeinc penv, sinput)
        else if String.eqb interfacename "ikfast_schunk_lwa3" then
          (new_IkFastSolver schunk_lwa3 freeinc penv, sinput)
        else if String.eqb interfacename "ikfast_katana5d" then
          (new_IkFastSolver katana5d freeinc penv, sinput)
        else (None, sinput)
  | PT_ProblemInstance =>
      if String.eqb interfacename "ikfast"
      then (Some (of_IKFastProblem penv), sinput)
      else (None, sinput)
  | PT_Other _ => (None, sinput)
  end.

(** The increment a constructed interface searches with, when it is one
    of this plugin's own solvers. *)
Definition increment_of (p : InterfaceBasePtr) : option dReal :=
  match p with
  | Some (of_IkFastSolver s) => Some (_fFreeInc s)
  | _ => None
  end.

End Factory.

Definition GetPluginAttributesValidated (info : PLUGININFO) : PLUGININFO :=
  let info := push_back PT_ProblemInstance "ikfast" info in
  let info := push_back PT_InverseKinematicsSolver "ikfast" info in
  let info := push_back PT_InverseKinematicsSolver "wam7ikfast" info in
  let info := push_back PT_InverseKinematicsSolver "pa10ikfast" info in
  let info := push_back PT_InverseKinematicsSolver "pumaikfast" info in
  let info := push_back PT_InverseKinematicsSolver "ikfast_pr2_head" info in
  let info := push_back PT_InverseKinematicsSolver "ikfast_pr2_head_torso" info in
  let info := push_back PT_InverseKinematicsSolver "ikfast_pr2_rightarm" info in
  let info := push_back PT_InverseKinematicsSolver "ikfast_pr2_rightarm_torso" info in
  let info := push_back PT_InverseKinematicsSolver "ikfast_pr2_leftarm" info in
  let info := push_back PT_InverseKinematicsSolver "ikfast_pr2_leftarm_torso" info in
  let info := push_back PT_InverseKinematicsSolver "ikfast_schunk_lwa3" info in
  let info := push_back PT_InverseKinematicsSolver "ikfast_katana5d" info in
  info.

(** The names the plugin registers for an interface type. *)
Definition registered (t : InterfaceType) : list string :=
  interfacenames (GetPluginAttributesValidated PLUGININFO_new) t.

(** The key mentions nothing after what has been read: only whitespace is
    left on the stream. *)
Definition nothing_left (s : IStream.istream) : bool :=
  IStream.is_empty (IStream.skipws (IStream.buf s)).




(** The interface name whose branch constructs the solver of a kernel. *)
Definition mechanism_name (m : Mechanism) : string :=
  match m with
  | barrettwam => "wam7ikfast"
  | pa10 => "pa10ikfast"
  | puma => "pumaikfast"
  | pr2_head => "ikfast_pr2_head"
  | pr2_head_torso => "ikfast_pr2_head_torso"
  | pr2_rightarm => "ikfast_pr2_rightarm"
  | pr2_rightarm_torso => "ikfast_pr2_rightarm_torso"
  | pr2_leftarm => "ikfast_pr2_leftarm"
  | pr2_leftarm_torso => "ikfast_pr2_leftarm_torso"
  | schunk_lwa3 => "ikfast_schunk_lwa3"
  | katana5d => "ikfast_katana5d"
  end.

End IkFastSolvers.

(* ================================================================== *)
(** ** plugins/rmanipulation/rmanipulation.cpp *)

Module RManipulation.

Section Factory.

Variable Env : Type.
(** [RaveGetInterfaceHash], from the core library. *)
Variable RaveGetInterfaceHash : PluginType -> string.

Inductive Interface : Type :=
| BaseManipulation (penv : Env)
| TaskManipulation (penv : Env)
| TaskCagingProblem (penv : Env)
| VisualFeedbackProblem (penv : Env).

Definition InterfaceBasePtr : Type := option Interface.

Definition CreateInterface
    (type : PluginType) (name : string) (pluginhash : string) (penv : option Env)
  : Outcome InterfaceBasePtr :=
  if negb (String.eqb pluginhash (RaveGetInterfaceHash type)) then
    Thrown "bad plugin hash"
  else
    match penv with
    | None => Returned None
    | Some env =>
        let ss := IStream.stringstream name in
        let (interfacename, ss) := IStream.extract_string ss "" in
        let interfacename := IStream.transform_tolower interfacename in
        match type with
        | PT_ProblemInstance =>
            if String.eqb interfacename "basemanipulation" then
              Returned (Some (BaseManipulation env))
            else if String.eqb interfacename "taskmanipulation" then
              Returned (Some (TaskManipulation env))
            else if String.eqb interfacename "taskcaging" then
              Returned (Some (TaskCagingProblem env))
            else if String.eqb interfacename "visualfeedback" then
              Returned (Some (VisualFeedbackProblem env))
            else Returned None
        | _ => Returned None
        end
    end.

End Factory.

Section Attributes.

(** [sizeof(PLUGININFO)], fixed by the build. *)
Variable sizeof_PLUGININFO : Z.

Definition GetPluginAttributes (pinfo : option PLUGININFO) (size : Z)
  : bool * option PLUGININFO :=
  match pinfo with
  | None => (false, None)
  | Some info =>
      if negb (Z.eqb size sizeof_PLUGININFO) then (false, Some info)
      else
        let info := push_back PT_ProblemInstance "BaseManipulation" info in
        let info := push_back PT_ProblemInstance "TaskManipulation" info in
        let info := push_back PT_ProblemInstance "TaskCaging" info in
        let info := push_back PT_ProblemInstance "VisualFeedback" info in
        (true, Some info)
  end.

(** The names the plugin registers for an interface type: what a
    well-sized call adds to an empty [PLUGININFO]. *)
Definition registered (t : PluginType) : list string :=
  match snd (GetPluginAttributes (Some PLUGININFO_new) sizeof_PLUGININFO) with
  | Some info => interfacenames info t
  | None => []
  end.

End Attributes.

(** The factory's way of reading a requested name: its first word, in
    lower case. *)
Definition requested (name : string) : string :=
  IStream.transform_tolower (fst (IStream.extract_string (IStream.stringstream name) "")).

(** A requested name matches a registered one when they agree up to
    letter case. *)
Definition matches (name : string) (reg : string) : Prop :=
  requested name = IStream.transform_tolower reg.

End RManipulation.

(* ================================================================== *)
(** ** The solving contract behind [IkSolverBase]

    [iksolver.h] declares [Init], [GetFreeParameters] and the four [Solve]
    overloads as pure virtual functions.  The class that implements them
    ([IkFastSolver], in [ikbase.h]) is not among the sources, so this
    module follows the written design of the solver instead. *)

Module IkSolver.

Import IkSolverBase.
Local Open Scope Q_scope.

Definition Configuration : Type := list dReal.
Definition FreeParameterVector : Type := list dReal.

(** Modelled from the spec: a joint's declared range; the manipulator
    class that holds the ranges is missing. *)
Record JointRange : Type := mkJointRange { lower : dReal; upper : dReal }.

(** Modelled from the spec: the analytic kernel, an external pure function
    with its metadata; the generated kernel headers are missing. *)
Record AnalyticKernel : Type := mkAnalyticKernel {
  numJoints : nat;
  numFreeParameters : nat;
  ikType : Type_;
  kinematicsIdentityHash : string;
  kernel_solve : Parameterization -> FreeParameterVector -> list Configuration
}.

(** Modelled from the spec: what a manipulator contributes to a binding,
    namely the declared ranges of its controllable joints, the ranges of
    its redundant joints, and its own kinematics hash; the manipulator
    class is missing. *)
Record Manipulator : Type := mkManipulator {
  jointRanges : list JointRange;
  freeRanges : list JointRange;
  computedHash : string
}.

Definition controllableJointCount (m : Manipulator) : nat := List.length (jointRanges m).
Definition redundancyCount (m : Manipulator) : nat := List.length (freeRanges m).

(** *** FreeParameterSpace *)

(** Modelled from the spec: the uniform grid of step [increment] inside
    the closed box; the search loop of [IkFastSolver] is missing.  One
    axis holds the multiples [0, increment, 2 increment, ...] that do not
    exceed 1, so an increment above 1 leaves the single point 0; the first
    axis is the most significant one. *)
Definition axis_steps (increment : dReal) : nat := Z.to_nat (Qfloor (1 / increment)).

Definition axis_point (increment : dReal) (j : nat) : dReal :=
  inject_Z (Z.of_nat j) * increment.

Definition axis (increment : dReal) : list dReal :=
  map (axis_point increment) (seq 0 (S (axis_steps increment))).

Fixpoint grid_over (pts : list dReal) (k : nat) : list FreeParameterVector :=
  match k with
  | O => [[]]
  | S k' => flat_map (fun x => map (cons x) (grid_over pts k')) pts
  end.

Definition grid (k : nat) (increment : dReal) : list FreeParameterVector :=
  grid_over (axis increment) k.




(** *** SolutionFilter *)

(** A configuration respects the declared limits: one value per joint,
    each inside its joint's range. *)
Definition respects_limits (ranges : list JointRange) (q : Configuration) : Prop :=
  Forall2 (fun r x => lower r <= x /\ x <= upper r) ranges q.

Definition within_range (r : JointRange) (x : dReal) : bool :=
  Qle_bool (lower r) x && Qle_bool x (upper r).

(** Modelled from the spec: the joint-limit check, a hard rejection; a
    candidate is a full configuration, one value per controllable joint. *)
Fixpoint within_limits (ranges : list JointRange) (q : Configuration) : bool :=
  match ranges, q with
  | [], [] => true
  | r :: ranges', x :: q' => within_range r x && within_limits ranges' q'
  | _, _ => false
  end.

(** Modelled from the spec: the joint-space distance used for ranking, the
    sum of the per-joint differences.  Joints are not told apart by kind
    here, so no difference is taken modulo a period. *)
Fixpoint distance (seed q : Configuration) : dReal :=
  match seed, q with
  | s :: seed', x :: q' => Qabs (x - s) + distance seed' q'
  | _, _ => 0
  end.

Section Solving.

(** The external collision oracle. *)
Variable isColliding : Configuration -> bool.

(** Modelled from the spec: the filter applies the limit check first and
    the collision check, when requested, last. *)
Definition survives (m : Manipulator) (checkCollision : bool) (q : Configuration) : bool :=
  within_limits (jointRanges m) q
  && (if checkCollision then negb (isColliding q) else true).

(** The nearest candidate to the seed; the earlier one wins a tie. *)
Fixpoint nearest (seed best : Configuration) (l : list Configuration) : Configuration :=
  match l with
  | [] => best
  | q :: l' =>
      if Qle_bool (distance seed best) (distance seed q)
      then nearest seed best l'
      else nearest seed q l'
  end.

(** Modelled from the spec: ranking.  With a seed the survivor nearest
    to it is the best one, without a seed the first survivor is. *)
Definition select (seed : option Configuration) (l : list Configuration)
  : option Configuration :=
  match l with
  | [] => None
  | q :: l' =>
      match seed with
      | None => Some q
      | Some s => Some (nearest s q l')
      end
  end.

(** *** NullSpaceSearch *)

(** Modelled from the spec: the free-parameter combinations searched,
    the pinned vector when the caller supplies one and the whole grid
    otherwise. *)
Definition searchPoints (k : nat) (increment : dReal)
    (explicitFreeValues : option FreeParameterVector) : list FreeParameterVector :=
  match explicitFreeValues with
  | Some v => [v]
  | None => grid k increment
  end.

(** Modelled from the spec: one kernel call per searched combination,
    all candidates accumulated in search order. *)
Definition candidates (kernel : AnalyticKernel) (param : Parameterization)
    (points : list FreeParameterVector) : list Configuration :=
  flat_map (kernel_solve kernel param) points.

(** *** IkSolver *)

(** Modelled from the spec: a solver is built over one kernel with one
    increment, and is bound to a manipulator by [Init]. *)
Record Solver : Type := mkSolver {
  kernel : AnalyticKernel;
  freeIncrement : dReal;
  binding : option Manipulator
}.

Definition Solver_new (k : AnalyticKernel) (increment : dReal) : Solver :=
  {| kernel := k; freeIncrement := increment; binding := None |}.

Definition binding_matches (k : AnalyticKernel) (m : Manipulator) : bool :=
  Nat.eqb (numJoints k) (controllableJointCount m)
  && Nat.eqb (numFreeParameters k) (redundancyCount m)
  && String.eqb (kinematicsIdentityHash k) (computedHash m).

(** Modelled from the spec: [Init] succeeds exactly on a matching
    manipulator; a mismatch leaves the solver uninitialized. *)
Definition Init (s : Solver) (pmanip : Manipulator) : bool * Solver :=
  if binding_matches (kernel s) pmanip
  then (true, {| kernel := kernel s; freeIncrement := freeIncrement s;
                 binding := Some pmanip |})
  else (false, {| kernel := kernel s; freeIncrement := freeIncrement s;
                  binding := None |}).

(** Modelled from the spec: every surviving candidate, in search order.
    An unbound solver and a parameterization of a type the kernel does
    not solve both give the empty answer. *)
Definition solveAll (s : Solver) (param : Parameterization)
    (explicitFreeValues : option FreeParameterVector) (checkCollision : bool)
  : list Configuration :=
  match binding s with
  | None => []
  | Some m =>
      if Type_eqb (GetType param) (ikType (kernel s)) then
        filter (survives m checkCollision)
               (candidates (kernel s) param
                  (searchPoints (numFreeParameters (kernel s)) (freeIncrement s)
                     explicitFreeValues))
      else []
  end.

(** Modelled from the spec: the single best surviving candidate. *)
Definition solve (s : Solver) (param : Parameterization)
    (seed : option Configuration)
    (explicitFreeValues : option FreeParameterVector) (checkCollision : bool)
  : option Configuration :=
  select seed (solveAll s param explicitFreeValues checkCollision).

(** The interface reports the outcome as a [bool]. *)
Definition found {A : Type} (r : option A) : bool :=
  match r with Some _ => true | None => false end.

End Solving.

End IkSolver.

(* ================================================================== *)
(** ** Concrete instances

    A small environment, kernel table and manipulator on which the
    definitions above can be run. *)

Module Demo.

Import IkSolverBase IkSolver.
Local Open Scope Q_scope.

(** Every embedded kernel described alike: seven joints, one free
    parameter at index 2. *)
Definition kernel_table (m : IkFastSolvers.Mechanism) : IkFastSolvers.KernelInfo :=
  {| IkFastSolvers.getNumFreeParameters := 1;
     IkFastSolvers.getFreeParameters := fun _ => 2%Z;
     IkFastSolvers.getNumJoints := 7%Z;
     IkFastSolvers.getIKType := 1%Z;
     IkFastSolvers.getKinematicsHash := "f00d" |}.

(** A library registry that knows every name and records what it was
    asked for. *)
Definition library_create (name : string) (freeinc : dReal) (penv : option unit)
  : option (string * dReal) := Some (name, freeinc).

Definition ikfast_create :=
  IkFastSolvers.CreateInterfaceValidated
    unit IStream.decimal_num_get kernel_table (string * dReal) library_create.

Definition interface_hash (t : PluginType) : string := "c0ffee".

Definition rmanip_create := RManipulation.CreateInterface unit interface_hash.

Definition never_colliding (q : Configuration) : bool := false.

Definition unit_range : JointRange := {| lower := 0; upper := 1 |}.

(** Two controllable joints, the first of them redundant. *)
Definition arm : Manipulator :=
  {| jointRanges := [unit_range; unit_range];
     freeRanges := [unit_range];
     computedHash := "f00d" |}.

Definition stale_arm : Manipulator :=
  {| jointRanges := [unit_range; unit_range];
     freeRanges := [unit_range];
     computedHash := "beef" |}.

(** Two branches per free value: one inside the limits, one outside. *)
Definition two_branches (param : Parameterization) (v : FreeParameterVector)
  : list Configuration :=
  match v with
  | [x] => [[x; 2]; [x; 1 # 2]]
  | _ => []
  end.

(** A kernel whose only branch lies outside the limits. *)
Definition out_of_reach (param : Parameterization) (v : FreeParameterVector)
  : list Configuration := [[5; 5]].

Definition kernel_of (branches : Parameterization -> FreeParameterVector -> list Configuration)
  : AnalyticKernel :=
  {| numJoints := 2; numFreeParameters := 1; ikType := Type_Transform6D;
     kinematicsIdentityHash := "f00d"; kernel_solve := branches |}.

Definition bound (k : AnalyticKernel) : Solver :=
  snd (Init (Solver_new k (1 # 2)) arm).

Definition pose : Parameterization := Parameterization_of_Transform Transform_default.

End Demo.

(* ================================================================== *)
(** * Properties *)

(** ** Parameterization *)

Section ParameterizationProperties.

Import IkSolverBase.

Lemma GetRay_rebuilds (r : RAY) : mkRAY (pos r) (dir r) = r.
Proof. destruct r; reflexivity. Qed.

(** C7: a parameterization set from a ray [r], by [SetRay] on any object
    or by the ray constructor, keeps [r]'s direction in the rotation slot
    and [r]'s origin in the translation slot, has type [Type_Ray4D], and
    gives [r] back through [GetRay]. *)
Theorem SetRay_GetRay :
  forall (r : RAY) (p : Parameterization),
    (GetRotation (SetRay r p) = dir r
     /\ GetTranslation (SetRay r p) = pos r
     /\ GetType (SetRay r p) = Type_Ray4D
     /\ pos (GetRay (SetRay r p)) = pos r
     /\ dir (GetRay (SetRay r p)) = dir r
     /\ GetRay (SetRay r p) = r)
    /\
    (GetRotation (Parameterization_of_RAY r) = dir r
     /\ GetTranslation (Parameterization_of_RAY r) = pos r
     /\ GetType (Parameterization_of_RAY r) = Type_Ray4D
     /\ GetRay (Parameterization_of_RAY r) = r).
Proof.
  intros r p.
  unfold Parameterization_of_RAY, GetRay, GetRotation, GetTranslation, GetType, SetRay.
  cbn [_transform _type rot trans pos dir].
  rewrite GetRay_rebuilds.
  repeat split.
Qed.

(** C8: every setter overwrites the type tag with its own variant,
    whatever the tag was before. *)
Theorem setter_overwrites_type :
  forall (p : Parameterization) (t : Transform) (v : Vector) (r : RAY),
    GetType (SetTransform t p) = Type_Transform6D
    /\ GetType (SetRotation v p) = Type_Rotation3D
    /\ GetType (SetTranslation v p) = Type_Translation3D
    /\ GetType (SetDirection v p) = Type_Direction2D
    /\ GetType (SetRay r p) = Type_Ray4D.
Proof.
  intros p t v r.
  repeat split.
Qed.

(** C9: [SetTranslation] leaves the rotation slot as it was, [SetRotation]
    and [SetDirection] leave the translation slot as it was, and each of
    them stores its argument in its own slot: besides the type tag, that
    slot is all the setter changes. *)
Theorem single_slot_setters_frame :
  forall (p : Parameterization) (v : Vector),
    (GetRotation (SetTranslation v p) = GetRotation p
     /\ GetTranslation (SetTranslation v p) = v)
    /\ (GetTranslation (SetRotation v p) = GetTranslation p
        /\ GetRotation (SetRotation v p) = v)
    /\ (GetTranslation (SetDirection v p) = GetTranslation p
        /\ GetDirection (SetDirection v p) = v).
Proof.
  intros [[r0 t0] ty] v.
  unfold GetRotation, GetTranslation, GetDirection,
    SetTranslation, SetRotation, SetDirection.
  cbn.
  repeat split.
Qed.

End ParameterizationProperties.

(** ** The plugin factories *)

(** Splits a test [String.eqb x s] found in the goal, closing the branch
    where the strings agree with [close]. *)
Ltac split_name_test close :=
  match goal with
  | |- context [String.eqb ?x ?s] =>
      destruct (String.eqb_spec x s); [ close | ]
  end.

Section FactoryProperties.

Variable Env : Type.
Variable num_get : string -> dReal -> dReal * string * bool.
Variable kernel : IkFastSolvers.Mechanism -> IkFastSolvers.KernelInfo.
Variable LibrarySolver : Type.
Variable CreateIkSolver : string -> dReal -> option Env -> option LibrarySolver.
Variable RaveGetInterfaceHash : PluginType -> string.
Variable sizeof_PLUGININFO : Z.

Let ikfast_create :=
  IkFastSolvers.CreateInterfaceValidated Env num_get kernel LibrarySolver CreateIkSolver.
Let rmanip_create := RManipulation.CreateInterface Env RaveGetInterfaceHash.

Lemma ikfast_registered_solvers :
  IkFastSolvers.registered PT_InverseKinematicsSolver =
  ["ikfast"; "wam7ikfast"; "pa10ikfast"; "pumaikfast"; "ikfast_pr2_head";
   "ikfast_pr2_head_torso"; "ikfast_pr2_rightarm"; "ikfast_pr2_rightarm_torso";
   "ikfast_pr2_leftarm"; "ikfast_pr2_leftarm_torso"; "ikfast_schunk_lwa3";
   "ikfast_katana5d"].
Proof. reflexivity. Qed.

Lemma ikfast_registered_problems :
  IkFastSolvers.registered PT_ProblemInstance = ["ikfast"].
Proof. reflexivity. Qed.

Lemma rmanip_registered_problems :
  RManipulation.registered sizeof_PLUGININFO PT_ProblemInstance =
  ["BaseManipulation"; "TaskManipulation"; "TaskCaging"; "VisualFeedback"].
Proof.
  unfold RManipulation.registered, RManipulation.GetPluginAttributes.
  rewrite Z.eqb_refl. reflexivity.
Qed.

Lemma ikfast_unregistered_null :
  forall (type : InterfaceType) (interfacename : string)
         (sinput : IStream.istream) (penv : option Env),
    ~ In interfacename (IkFastSolvers.registered type) ->
    fst (ikfast_create type interfacename sinput penv) = None.
Proof.
  intros type interfacename sinput penv Hnot.
  unfold ikfast_create, IkFastSolvers.CreateInterfaceValidated.
  destruct type as [ | | tag].
  - rewrite ikfast_registered_problems in Hnot.
    split_name_test ltac:(exfalso; apply Hnot; subst; simpl; tauto).
    reflexivity.
  - rewrite ikfast_registered_solvers in Hnot.
    split_name_test ltac:(exfalso; apply Hnot; subst; simpl; tauto).
    destruct (IStream.extract_real num_get sinput IkFastSolvers.freeinc_default)
      as [freeinc sinput'].
    repeat split_name_test ltac:(exfalso; apply Hnot; subst; simpl; tauto).
    reflexivity.
  - reflexivity.
Qed.

Lemma rmanip_unregistered_null :
  forall (type : PluginType) (name pluginhash : string) (penv : option Env),
    pluginhash = RaveGetInterfaceHash type ->
    (forall reg, In reg (RManipulation.registered sizeof_PLUGININFO type) ->
                 ~ RManipulation.matches name reg) ->
    rmanip_create type name pluginhash penv = Returned None.
Proof.
  intros type name pluginhash penv Hhash Hnot.
  unfold rmanip_create, RManipulation.CreateInterface.
  rewrite Hhash, String.eqb_refl. cbn [negb].
  destruct penv as [env | ]; [ | reflexivity ].
  unfold RManipulation.matches, RManipulation.requested in Hnot.
  destruct (IStream.extract_string (IStream.stringstream name) "") as [w ss].
  cbn [fst] in Hnot.
  destruct type as [ | | tag]; try reflexivity.
  rewrite rmanip_registered_problems in Hnot.
  repeat split_name_test
    ltac:(exfalso;
          match goal with
          | e : _ = ?s |- _ =>
              first [ apply (Hnot "BaseManipulation"); [ simpl; tauto | exact e ]
                    | apply (Hnot "TaskManipulation"); [ simpl; tauto | exact e ]
                    | apply (Hnot "TaskCaging"); [ simpl; tauto | exact e ]
                    | apply (Hnot "VisualFeedback"); [ simpl; tauto | exact e ] ]
          end).
  reflexivity.
Qed.

(** C10: a name that matches none of the names the plugin registers for
    the requested interface type makes the factory return the null
    pointer, constructing nothing and throwing nothing: for
    [CreateInterfaceValidated] of ikfastsolvers on the interface name it is
    given, and for [CreateInterface] of rmanipulation, once the plugin hash
    agrees, on the name as it reads it (first word, letter case ignored). *)
Theorem unregistered_name_gives_null :
  (forall (type : InterfaceType) (interfacename : string)
          (sinput : IStream.istream) (penv : option Env),
      ~ In interfacename (IkFastSolvers.registered type) ->
      fst (IkFastSolvers.CreateInterfaceValidated
             Env num_get kernel LibrarySolver CreateIkSolver
             type interfacename sinput penv) = None)
  /\
  (forall (type : PluginType) (name pluginhash : string) (penv : option Env),
      pluginhash = RaveGetInterfaceHash type ->
      (forall reg, In reg (RManipulation.registered sizeof_PLUGININFO type) ->
                   ~ RManipulation.matches name reg) ->
      RManipulation.CreateInterface Env RaveGetInterfaceHash
        type name pluginhash penv = Returned None).
Proof.
  split.
  - exact ikfast_unregistered_null.
  - exact rmanip_unregistered_null.
Qed.

End FactoryProperties.

Section DefaultIncrement.

Variable Env : Type.
Variable num_get : string -> dReal -> dReal * string * bool.
Variable kernel : IkFastSolvers.Mechanism -> IkFastSolvers.KernelInfo.
Variable LibrarySolver : Type.
Variable CreateIkSolver : string -> dReal -> option Env -> option LibrarySolver.

(** Reading a number from a stream with nothing but whitespace left, in
    whatever state, stores nothing. *)
Lemma extract_real_nothing_left :
  forall (s : IStream.istream) (old : dReal),
    IkFastSolvers.nothing_left s = true ->
    fst (IStream.extract_real num_get s old) = old.
Proof.
  intros s old Hleft.
  unfold IkFastSolvers.nothing_left in Hleft.
  unfold IStream.extract_real, IStream.sentry.
  destruct (IStream.good s).
  - rewrite Hleft. reflexivity.
  - reflexivity.
Qed.

Lemma specific_form_default :
  forall (interfacename : string) (sinput : IStream.istream) (penv : option Env),
    In interfacename (IkFastSolvers.registered PT_InverseKinematicsSolver) ->
    interfacename <> "ikfast" ->
    IkFastSolvers.nothing_left sinput = true ->
    IkFastSolvers.increment_of Env LibrarySolver
      (fst (IkFastSolvers.CreateInterfaceValidated
              Env num_get kernel LibrarySolver CreateIkSolver
              PT_InverseKinematicsSolver interfacename sinput penv))
    = Some IkFastSolvers.freeinc_default.
Proof.
  intros interfacename sinput penv Hin Hne Hleft.
  pose proof (extract_real_nothing_left sinput IkFastSolvers.freeinc_default Hleft) as Hinc.
  unfold IkFastSolvers.CreateInterfaceValidated.
  destruct (IStream.extract_real num_get sinput IkFastSolvers.freeinc_default)
    as [freeinc sinput'].
  cbn [fst] in Hinc. subst freeinc.
  destruct (String.eqb_spec interfacename "ikfast") as [e | _]; [ contradiction | ].
  simpl in Hin.
  repeat (destruct Hin as [Hin | Hin];
          [ try congruence; subst interfacename; reflexivity | ]).
  contradiction.
Qed.

Lemma generic_form_default :
  forall (sinput sinput1 : IStream.istream) (ikfastname : string) (penv : option Env),
    IStream.extract_string sinput "" = (ikfastname, sinput1) ->
    IStream.ok sinput1 = true ->
    IkFastSolvers.nothing_left sinput1 = true ->
    fst (IkFastSolvers.CreateInterfaceValidated
           Env num_get kernel LibrarySolver CreateIkSolver
           PT_InverseKinematicsSolver "ikfast" sinput penv)
    = option_map (IkFastSolvers.of_LibrarySolver Env LibrarySolver)
        (CreateIkSolver ikfastname IkFastSolvers.freeinc_default penv).
Proof.
  intros sinput sinput1 ikfastname penv Hname Hok Hleft.
  pose proof (extract_real_nothing_left sinput1 IkFastSolvers.freeinc_default Hleft) as Hinc.
  unfold IkFastSolvers.CreateInterfaceValidated.
  cbn [String.eqb Ascii.eqb Bool.eqb].
  rewrite Hname, Hok.
  destruct (IStream.extract_real num_get sinput1 IkFastSolvers.freeinc_default)
    as [freeinc sinput2].
  cbn [fst] in Hinc. subst freeinc.
  destruct (CreateIkSolver ikfastname IkFastSolvers.freeinc_default penv);
    reflexivity.
Qed.

(** C6: when the key carries no increment, the solver is built with the
    default 0.04.  For a mechanism-specific name with nothing but
    whitespace left on the stream, the constructed [IkFastSolver] holds the
    default; for the generic ["ikfast <name>"] form with nothing after the
    name, the solver returned is the one [CreateIkSolver] gives for that
    name and the default. *)
Theorem default_increment_when_omitted :
  (forall (interfacename : string) (sinput : IStream.istream) (penv : option Env),
      In interfacename (IkFastSolvers.registered PT_InverseKinematicsSolver) ->
      interfacename <> "ikfast" ->
      IkFastSolvers.nothing_left sinput = true ->
      IkFastSolvers.increment_of Env LibrarySolver
        (fst (IkFastSolvers.CreateInterfaceValidated
                Env num_get kernel LibrarySolver CreateIkSolver
                PT_InverseKinematicsSolver interfacename sinput penv))
      = Some (4 # 100))
  /\
  (forall (sinput sinput1 : IStream.istream) (ikfastname : string) (penv : option Env),
      IStream.extract_string sinput "" = (ikfastname, sinput1) ->
      IStream.ok sinput1 = true ->
      IkFastSolvers.nothing_left sinput1 = true ->
      fst (IkFastSolvers.CreateInterfaceValidated
             Env num_get kernel LibrarySolver CreateIkSolver
             PT_InverseKinematicsSolver "ikfast" sinput penv)
      = option_map (IkFastSolvers.of_LibrarySolver Env LibrarySolver)
          (CreateIkSolver ikfastname (4 # 100) penv)).
Proof.
  split.
  - exact specific_form_default.
  - exact generic_form_default.
Qed.

End DefaultIncrement.

(** ** The solving contract *)

Section SolverProperties.

Import IkSolverBase IkSolver.
Local Open Scope Q_scope.

Variable isColliding : Configuration -> bool.

Lemma within_limits_respects :
  forall (ranges : list JointRange) (q : Configuration),
    within_limits ranges q = true <-> respects_limits ranges q.
Proof.
  unfold respects_limits.
  induction ranges as [ | r ranges IH]; intros [ | x q]; simpl.
  - split; [ constructor | reflexivity ].
  - split; [ discriminate | intros H; inversion H ].
  - split; [ discriminate | intros H; inversion H ].
  - unfold within_range.
    rewrite !andb_true_iff, !Qle_bool_iff, IH.
    split.
    + intros [[Hlo Hhi] Hrest]. constructor; [ split | ]; assumption.
    + intros H. inversion H; subst. tauto.
Qed.

Lemma survives_within_limits :
  forall (m : Manipulator) (cc : bool) (q : Configuration),
    survives isColliding m cc q = true -> respects_limits (jointRanges m) q.
Proof.
  intros m cc q H. unfold survives in H.
  apply andb_true_iff in H. destruct H as [H _].
  apply within_limits_respects. exact H.
Qed.

Lemma filter_all_rejected :
  forall (A : Type) (f : A -> bool) (l : list A),
    (forall x, In x l -> f x = false) -> filter f l = [].
Proof.
  intros A f l. induction l as [ | a l IH]; intros H; simpl.
  - reflexivity.
  - rewrite (H a (or_introl eq_refl)). apply IH.
    intros x Hx. apply H. right. exact Hx.
Qed.

Lemma nearest_In :
  forall (seed : Configuration) (l : list Configuration) (best : Configuration),
    In (nearest seed best l) (best :: l).
Proof.
  intros seed l. induction l as [ | q l IH]; intros best; simpl.
  - left. reflexivity.
  - destruct (Qle_bool (distance seed best) (distance seed q)).
    + destruct (IH best) as [H | H]; [ left; exact H | right; right; exact H ].
    + right. exact (IH q).
Qed.

Lemma select_In :
  forall (seed : option Configuration) (l : list Configuration) (q : Configuration),
    select seed l = Some q -> In q l.
Proof.
  intros seed [ | a l] q H; simpl in H.
  - discriminate.
  - destruct seed as [s | ]; inversion H; subst.
    + apply nearest_In.
    + left. reflexivity.
Qed.

Lemma select_nil : forall seed : option Configuration, select seed [] = None.
Proof. reflexivity. Qed.

(** Whatever [solveAll] returns was produced by the kernel at a searched
    point of a bound solver, and survived the filter. *)
Lemma solveAll_In :
  forall (s : Solver) (param : Parameterization)
         (explicit : option FreeParameterVector) (cc : bool) (q : Configuration),
    In q (solveAll isColliding s param explicit cc) ->
    exists m v,
      binding s = Some m
      /\ In v (searchPoints (numFreeParameters (kernel s)) (freeIncrement s) explicit)
      /\ In q (kernel_solve (kernel s) param v)
      /\ survives isColliding m cc q = true.
Proof.
  intros s param explicit cc q H.
  unfold solveAll in H.
  destruct (binding s) as [m | ]; [ | contradiction ].
  destruct (Type_eqb (GetType param) (ikType (kernel s))); [ | contradiction ].
  apply filter_In in H. destruct H as [Hin Hsurv].
  unfold candidates in Hin. apply in_flat_map in Hin.
  destruct Hin as [v [Hv Hq]].
  exists m, v. repeat split; assumption.
Qed.

(** C1: when no candidate of any searched free-parameter combination
    survives the filter (in particular when the kernel returns no branch
    at all), [solve] gives the absent result, reported as [false], and
    [solveAll] the empty sequence. *)
Theorem no_survivor_gives_empty :
  forall (s : Solver) (param : Parameterization) (seed : option Configuration)
         (explicit : option FreeParameterVector) (cc : bool),
    (forall m v q,
        binding s = Some m ->
        In v (searchPoints (numFreeParameters (kernel s)) (freeIncrement s) explicit) ->
        In q (kernel_solve (kernel s) param v) ->
        survives isColliding m cc q = false) ->
    solve isColliding s param seed explicit cc = None
    /\ found (solve isColliding s param seed explicit cc) = false
    /\ solveAll isColliding s param explicit cc = [].
Proof.
  intros s param seed explicit cc Hnone.
  assert (Hall : solveAll isColliding s param explicit cc = []).
  { destruct (solveAll isColliding s param explicit cc) as [ | q l] eqn:E;
      [ reflexivity | exfalso ].
    assert (Hq : In q (solveAll isColliding s param explicit cc))
      by (rewrite E; left; reflexivity).
    apply solveAll_In in Hq.
    destruct Hq as [m [v [Hb [Hv [Hq Hs]]]]].
    rewrite (Hnone m v q Hb Hv Hq) in Hs. discriminate. }
  unfold solve. rewrite Hall, select_nil.
  repeat split.
Qed.

(** C2: every configuration that [solve] or [solveAll] returns is one of
    the kernel's candidates, unchanged, with every joint value inside the
    declared range of its joint; a candidate with a value outside its
    range is never returned. *)
Theorem returned_configurations_within_limits :
  forall (s : Solver) (param : Parameterization) (seed : option Configuration)
         (explicit : option FreeParameterVector) (cc : bool) (q : Configuration),
    In q (solveAll isColliding s param explicit cc)
    \/ solve isColliding s param seed explicit cc = Some q ->
    exists m,
      binding s = Some m
      /\ respects_limits (jointRanges m) q
      /\ exists v,
           In v (searchPoints (numFreeParameters (kernel s)) (freeIncrement s) explicit)
           /\ In q (kernel_solve (kernel s) param v).
Proof.
  intros s param seed explicit cc q H.
  assert (Hin : In q (solveAll isColliding s param explicit cc)).
  { destruct H as [H | H]; [ exact H | ].
    unfold solve in H. apply select_In in H. exact H. }
  apply solveAll_In in Hin.
  destruct Hin as [m [v [Hb [Hv [Hq Hs]]]]].
  exists m. split; [ exact Hb | ].
  split; [ exact (survives_within_limits m cc q Hs) | ].
  exists v. split; assumption.
Qed.

(** C3: [Init] fails whenever the kernel's joint count or free-parameter
    count differs from the manipulator's controllable joint count or
    redundancy count, or the two kinematics hashes differ; the solver is
    then unbound, and solving with it finds nothing. *)
Theorem Init_rejects_mismatch :
  forall (s : Solver) (pmanip : Manipulator),
    numJoints (kernel s) <> controllableJointCount pmanip
    \/ numFreeParameters (kernel s) <> redundancyCount pmanip
    \/ kinematicsIdentityHash (kernel s) <> computedHash pmanip ->
    fst (Init s pmanip) = false
    /\ binding (snd (Init s pmanip)) = None
    /\ forall param seed explicit cc,
         solve isColliding (snd (Init s pmanip)) param seed explicit cc = None
         /\ solveAll isColliding (snd (Init s pmanip)) param explicit cc = [].
Proof.
  intros s pmanip Hmis.
  assert (Hb : binding_matches (kernel s) pmanip = false).
  { unfold binding_matches.
    destruct (Nat.eqb_spec (numJoints (kernel s)) (controllableJointCount pmanip));
      [ | reflexivity ].
    destruct (Nat.eqb_spec (numFreeParameters (kernel s)) (redundancyCount pmanip));
      [ | reflexivity ].
    destruct (String.eqb_spec (kinematicsIdentityHash (kernel s)) (computedHash pmanip));
      [ | reflexivity ].
    exfalso. tauto. }
  unfold Init. rewrite Hb. cbn [fst snd binding].
  repeat split.
Qed.

End SolverProperties.

(** ** FreeParameterSpace *)

Section GridProperties.

Import IkSolver.
Local Open Scope Q_scope.

Variable increment : dReal.
Hypothesis increment_pos : 0 < increment.

(** The index bound of an axis is exactly the condition of staying inside
    the unit interval. *)
Lemma axis_point_in_unit :
  forall j : nat, (j <= axis_steps increment)%nat <-> axis_point increment j <= 1.
Proof.
  intros j. unfold axis_steps, axis_point, dReal in *.
  assert (Hdiv : 0 <= 1 / increment).
  { apply Qle_shift_div_l; [ exact increment_pos | ].
    rewrite Qmult_0_l. discriminate. }
  assert (Hfl : (0 <= Qfloor (1 / increment))%Z).
  { rewrite <- (Qfloor_Z 0). apply Qfloor_resp_le. exact Hdiv. }
  split.
  - intros Hj.
    assert (Hz : (Z.of_nat j <= Qfloor (1 / increment))%Z) by lia.
    apply Qle_trans with (inject_Z (Qfloor (1 / increment)) * increment).
    + apply Qmult_le_r; [ exact increment_pos | ].
      rewrite <- Zle_Qle. exact Hz.
    + apply Qle_trans with ((1 / increment) * increment).
      * apply Qmult_le_r; [ exact increment_pos | ]. apply Qfloor_le.
      * apply Qle_lteq. right. field.
        intros Hz0. rewrite Hz0 in increment_pos.
        exact (Qlt_irrefl 0 increment_pos).
  - intros Hle.
    assert (Hq : inject_Z (Z.of_nat j) <= 1 / increment).
    { apply Qle_shift_div_l; [ exact increment_pos | exact Hle ]. }
    apply Qfloor_resp_le in Hq. rewrite Qfloor_Z in Hq. lia.
Qed.



Lemma axis_point_origin : axis_point increment 0 == 0.
Proof. unfold axis_point. simpl. apply Qmult_0_l. Qed.

(** Past the origin a multiple is at least one increment. *)
Lemma axis_point_beyond :
  forall j : nat, (0 < j)%nat -> increment <= axis_point increment j.
Proof.
  intros j Hj. unfold axis_point.
  apply Qle_trans with (inject_Z 1 * increment).
  - apply Qle_lteq. right. unfold dReal in *. ring.
  - apply Qmult_le_r; [ exact increment_pos | ].
    rewrite <- Zle_Qle. lia.
Qed.





(** Above 1 the axis degenerates to the origin alone. *)
Lemma axis_above_one :
  1 < increment -> axis increment = [axis_point increment 0].
Proof.
  intros Hgt. unfold axis.
  assert (Hsteps : axis_steps increment = 0%nat).
  { destruct (axis_steps increment) as [ | n] eqn:E; [ reflexivity | exfalso ].
    assert (H1 : (1 <= axis_steps increment)%nat) by lia.
    apply axis_point_in_unit in H1.
    apply (Qlt_irrefl 1).
    apply Qlt_le_trans with increment; [ exact Hgt | ].
    apply Qle_trans with (axis_point increment 1); [ | exact H1 ].
    apply axis_point_beyond. lia. }
  rewrite Hsteps. reflexivity.
Qed.

End GridProperties.

Section GridOver.

Import IkSolver.
Local Open Scope Q_scope.

Variable pts : list dReal.






End GridOver.

Section GridValue.

Import IkSolver.
Local Open Scope Q_scope.






Lemma grid_over_single :
  forall (a : dReal) (k : nat), grid_over [a] k = [repeat a k].
Proof.
  intros a k. induction k as [ | k IH]; simpl.
  - reflexivity.
  - rewrite IH. reflexivity.
Qed.

(** An increment above 1 degenerates to the single-point grid at 0. *)
Lemma grid_degenerates_above_one :
  forall (k : nat) (increment : dReal),
    1 < increment ->
    grid k increment = [repeat (axis_point increment 0) k]
    /\ axis_point increment 0 == 0.
Proof.
  intros k increment Hgt.
  assert (Hpos : 0 < increment).
  { apply Qlt_trans with 1; [ reflexivity | exact Hgt ]. }
  split.
  - unfold grid. rewrite (axis_above_one increment Hpos Hgt).
    apply grid_over_single.
  - apply axis_point_origin.
Qed.

End GridValue.

Section GridTheorem.

Import IkSolver.
Local Open Scope Q_scope.




End GridTheorem.

(* ================================================================== *)
(** * The statements at work on concrete inputs *)

Section Instances.

Import IkSolverBase IkSolver.
Local Open Scope Q_scope.

(** An explicit increment on the key is the one the solver gets. *)
Example explicit_increment_is_used :
  IkFastSolvers.increment_of unit (string * dReal)
    (fst (Demo.ikfast_create PT_InverseKinematicsSolver "pa10ikfast"
            (IStream.stringstream " 0.1") None))
  = Some (inject_Z 0 + inject_Z 1 / inject_Z (10 ^ 1)).
Proof. reflexivity. Qed.

Example first_word_is_lowered :
  RManipulation.requested "  TaskCaging  robot1" = "taskcaging".
Proof. reflexivity. Qed.

Example registered_name_is_constructed :
  Demo.rmanip_create PT_ProblemInstance "VisualFeedback" "c0ffee" (Some tt)
  = Returned (Some (RManipulation.VisualFeedbackProblem unit tt)).
Proof. reflexivity. Qed.

Example wrong_hash_throws :
  Demo.rmanip_create PT_ProblemInstance "VisualFeedback" "decaf" (Some tt)
  = Thrown "bad plugin hash".
Proof. reflexivity. Qed.

Example grid_of_one_half :
  grid 1 (1 # 2) = [[0 # 2]; [1 # 2]; [2 # 2]].
Proof. reflexivity. Qed.

Example grid_of_one :
  grid 1 1 = [[0 # 1]; [1 # 1]].
Proof. reflexivity. Qed.

Example nearest_to_seed :
  solve Demo.never_colliding (Demo.bound (Demo.kernel_of Demo.two_branches))
    Demo.pose (Some [1; 1]) None true
  = Some [2 # 2; 1 # 2].
Proof. reflexivity. Qed.

Lemma no_survivor_gives_empty_witness :
  solve Demo.never_colliding (Demo.bound (Demo.kernel_of Demo.out_of_reach))
    Demo.pose (Some [1; 1]) None true = None
  /\ found (solve Demo.never_colliding (Demo.bound (Demo.kernel_of Demo.out_of_reach))
              Demo.pose (Some [1; 1]) None true) = false
  /\ solveAll Demo.never_colliding (Demo.bound (Demo.kernel_of Demo.out_of_reach))
       Demo.pose None true = [].
Proof.
  apply (no_survivor_gives_empty Demo.never_colliding
           (Demo.bound (Demo.kernel_of Demo.out_of_reach))
           Demo.pose (Some [1; 1]) None true).
  intros m v q Hm Hv Hq.
  injection Hm as Hm. subst m.
  simpl in Hq. destruct Hq as [Hq | []]. subst q.
  reflexivity.
Defined.

Lemma returned_configurations_within_limits_witness :
  exists m,
    binding (Demo.bound (Demo.kernel_of Demo.two_branches)) = Some m
    /\ respects_limits (jointRanges m) [0; 1 # 2]
    /\ exists v,
         In v (searchPoints 1 (1 # 2) (Some [0]))
         /\ In [0; 1 # 2] (Demo.two_branches Demo.pose v).
Proof.
  apply (returned_configurations_within_limits Demo.never_colliding
           (Demo.bound (Demo.kernel_of Demo.two_branches))
           Demo.pose None (Some [0]) true [0; 1 # 2]).
  left. vm_compute. left. reflexivity.
Defined.

Lemma Init_rejects_mismatch_witness :
  fst (Init (Solver_new (Demo.kernel_of Demo.two_branches) (1 # 2)) Demo.stale_arm) = false
  /\ binding (snd (Init (Solver_new (Demo.kernel_of Demo.two_branches) (1 # 2))
                     Demo.stale_arm)) = None
  /\ forall param seed explicit cc,
       solve Demo.never_colliding
         (snd (Init (Solver_new (Demo.kernel_of Demo.two_branches) (1 # 2)) Demo.stale_arm))
         param seed explicit cc = None
       /\ solveAll Demo.never_colliding
            (snd (Init (Solver_new (Demo.kernel_of Demo.two_branches) (1 # 2)) Demo.stale_arm))
            param explicit cc = [].
Proof.
  apply (Init_rejects_mismatch Demo.never_colliding
           (Solver_new (Demo.kernel_of Demo.two_branches) (1 # 2)) Demo.stale_arm).
  right. right. simpl. discriminate.
Defined.


Lemma default_increment_when_omitted_witness :
  IkFastSolvers.increment_of unit (string * dReal)
    (fst (Demo.ikfast_create PT_InverseKinematicsSolver "wam7ikfast"
            (IStream.stringstream "  ") None))
  = Some (4 # 100)
  /\ fst (Demo.ikfast_create PT_InverseKinematicsSolver "ikfast"
            (IStream.stringstream " mylib") None)
     = Some (IkFastSolvers.of_LibrarySolver unit (string * dReal) ("mylib", 4 # 100)).
Proof.
  pose proof (default_increment_when_omitted
                unit IStream.decimal_num_get Demo.kernel_table
                (string * dReal) Demo.library_create) as [Hspecific Hgeneric].
  split.
  - apply Hspecific.
    + simpl. tauto.
    + discriminate.
    + reflexivity.
  - apply (Hgeneric (IStream.stringstream " mylib")
             {| IStream.buf := ""; IStream.eofbit := true; IStream.failbit := false |}
             "mylib" None); reflexivity.
Defined.

Lemma unregistered_name_gives_null_witness :
  fst (Demo.ikfast_create PT_InverseKinematicsSolver "wam8ikfast"
         (IStream.stringstream " 0.1") None) = None
  /\ Demo.rmanip_create PT_ProblemInstance "GraspPlanner robot1" "c0ffee" (Some tt)
     = Returned None.
Proof.
  pose proof (unregistered_name_gives_null
                unit IStream.decimal_num_get Demo.kernel_table
                (string * dReal) Demo.library_create Demo.interface_hash 64%Z)
    as [Hikfast Hrmanip].
  split.
  - apply Hikfast.
    simpl. intros H.
    repeat (destruct H as [H | H]; [ discriminate H | ]).
    exact H.
  - apply Hrmanip.
    + reflexivity.
    + intros reg Hin.
      vm_compute in Hin.
      repeat (destruct Hin as [Hin | Hin];
              [ subst reg; unfold RManipulation.matches; vm_compute; discriminate | ]).
      contradiction.
Defined.

End Instances.


(* ================================================================== *)
(** * Further properties of the sources *)

(** ** Parameterization: how the setters and getters compose *)

Section ParameterizationComposition.

Import IkSolverBase.

Lemma Transform_eta (t : Transform) : mkTransform (rot t) (trans t) = t.
Proof. destruct t; reflexivity. Qed.

(** X1: reading any parameterization as a ray and setting that ray on any
    object stores the first one's transform again, both slots, under the
    tag [Type_Ray4D]. *)
Theorem SetRay_of_GetRay :
  forall p p0 : Parameterization,
    GetTransform (SetRay (GetRay p) p0) = GetTransform p
    /\ GetType (SetRay (GetRay p) p0) = Type_Ray4D.
Proof.
  intros p p0. split; [ | reflexivity ].
  unfold GetTransform, SetRay, GetRay.
  cbn [_transform rot trans pos dir].
  apply Transform_eta.
Qed.

(** X2: [SetRotation] and [SetTranslation], in either order, store the same
    transform as one [SetTransform] of the two vectors; the tag is the one
    of the setter called last, never [Type_Transform6D]. *)
Theorem rotation_and_translation_compose :
  forall (p : Parameterization) (q v : Vector),
    GetTransform (SetRotation q (SetTranslation v p))
      = GetTransform (SetTransform (mkTransform q v) p)
    /\ GetTransform (SetTranslation v (SetRotation q p))
         = GetTransform (SetTransform (mkTransform q v) p)
    /\ GetType (SetRotation q (SetTranslation v p)) = Type_Rotation3D
    /\ GetType (SetTranslation v (SetRotation q p)) = Type_Translation3D
    /\ GetType (SetRotation q (SetTranslation v p)) <> Type_Transform6D
    /\ GetType (SetTranslation v (SetRotation q p)) <> Type_Transform6D.
Proof.
  intros p q v.
  unfold GetTransform, GetType, SetRotation, SetTranslation, SetTransform.
  cbn [_transform _type rot trans].
  repeat split; discriminate.
Qed.

(** X3: the rotation and the direction are one slot: for every object
    [GetDirection] and [GetRotation] agree, so a direction set after a
    rotation replaces it, and a rotation set after a direction replaces
    that. *)
Theorem direction_and_rotation_share_slot :
  forall (p : Parameterization) (q d : Vector),
    GetDirection p = GetRotation p
    /\ GetRotation (SetDirection d (SetRotation q p)) = d
    /\ GetDirection (SetRotation q (SetDirection d p)) = q
    /\ GetTransform (SetDirection d (SetRotation q p))
         = GetTransform (SetRotation d p).
Proof.
  intros p q d.
  unfold GetDirection, GetRotation, GetTransform, SetDirection, SetRotation.
  cbn [_transform rot trans].
  repeat split.
Qed.

(** X4: [SetTransform] and [SetRay] keep nothing of the object they are
    called on, so the converting constructors build what the setter builds
    on any object, and [GetTransform] returns the transform last set; a
    single-slot setter called twice keeps the later value only. *)
Theorem full_setters_forget_the_past :
  forall (t : Transform) (r : RAY) (a b : Vector) (p p' : Parameterization),
    SetTransform t p = SetTransform t p'
    /\ SetRay r p = SetRay r p'
    /\ Parameterization_of_Transform t = SetTransform t p
    /\ Parameterization_of_RAY r = SetRay r p
    /\ GetTransform (SetTransform t p) = t
    /\ SetRotation a (SetRotation b p) = SetRotation a p
    /\ SetTranslation a (SetTranslation b p) = SetTranslation a p
    /\ SetDirection a (SetDirection b p) = SetDirection a p.
Proof.
  intros t r a b p p'.
  repeat split.
Qed.

End ParameterizationComposition.

(** ** ikfastsolvers: what the factory builds, reads and registers *)

Section IkFastFactory.

Variable Env : Type.
Variable num_get : string -> dReal -> dReal * string * bool.
Variable kernel : IkFastSolvers.Mechanism -> IkFastSolvers.KernelInfo.
Variable LibrarySolver : Type.
Variable CreateIkSolver : string -> dReal -> option Env -> option LibrarySolver.

(** X5: every mechanism-specific name the plugin registers is constructed,
    whatever is on the stream and whatever its state (a missing or
    malformed increment never prevents construction): the result is an
    [IkFastSolver] of the kernel registered under that name, holding the
    environment passed in and that kernel's joint count, type, hash and
    free-parameter indices. *)
Theorem registered_solver_is_constructed :
  forall (interfacename : string) (sinput : IStream.istream) (penv : option Env),
    In interfacename (IkFastSolvers.registered PT_InverseKinematicsSolver) ->
    interfacename <> "ikfast" ->
    exists s : IkFastSolvers.IkFastSolver Env,
      fst (IkFastSolvers.CreateInterfaceValidated
             Env num_get kernel LibrarySolver CreateIkSolver
             PT_InverseKinematicsSolver interfacename sinput penv)
      = Some (IkFastSolvers.of_IkFastSolver Env LibrarySolver s)
      /\ IkFastSolvers.mechanism_name (IkFastSolvers._pfnik Env s) = interfacename
      /\ IkFastSolvers._penv Env s = penv
      /\ IkFastSolvers._nTotalJoints Env s
         = IkFastSolvers.getNumJoints (kernel (IkFastSolvers._pfnik Env s))
      /\ IkFastSolvers._iktype Env s
         = IkFastSolvers.getIKType (kernel (IkFastSolvers._pfnik Env s))
      /\ IkFastSolvers._kinematicshash Env s
         = IkFastSolvers.getKinematicsHash (kernel (IkFastSolvers._pfnik Env s))
      /\ IkFastSolvers._vfreeparams Env s
         = map (IkFastSolvers.getFreeParameters (kernel (IkFastSolvers._pfnik Env s)))
               (seq 0 (IkFastSolvers.getNumFreeParameters
                         (kernel (IkFastSolvers._pfnik Env s)))).
Proof.
  intros interfacename sinput penv Hin Hne.
  unfold IkFastSolvers.CreateInterfaceValidated.
  destruct (IStream.extract_real num_get sinput IkFastSolvers.freeinc_default)
    as [freeinc sinput'].
  destruct (String.eqb_spec interfacename "ikfast") as [e | _]; [ contradiction | ].
  simpl in Hin.
  repeat (destruct Hin as [Hin | Hin];
          [ first [ congruence
                  | subst interfacename; cbn;
                    eexists; split; [ reflexivity | repeat split ] ] | ]).
  contradiction.
Qed.

(** X6: an [IkFastSolver] is returned only for the solver interface type,
    only under a registered mechanism-specific name, and always for the
    kernel that name stands for; two different names never give solvers of
    the same kernel. *)
Theorem constructed_solver_matches_name :
  forall (type : InterfaceType) (interfacename : string)
         (sinput : IStream.istream) (penv : option Env)
         (s : IkFastSolvers.IkFastSolver Env),
    fst (IkFastSolvers.CreateInterfaceValidated
           Env num_get kernel LibrarySolver CreateIkSolver
           type interfacename sinput penv)
    = Some (IkFastSolvers.of_IkFastSolver Env LibrarySolver s) ->
    type = PT_InverseKinematicsSolver
    /\ interfacename = IkFastSolvers.mechanism_name (IkFastSolvers._pfnik Env s)
    /\ interfacename <> "ikfast"
    /\ In interfacename (IkFastSolvers.registered PT_InverseKinematicsSolver).
Proof.
  intros type interfacename sinput penv s H.
  unfold IkFastSolvers.CreateInterfaceValidated in H.
  destruct type as [ | | tag].
  - destruct (String.eqb interfacename "ikfast"); discriminate H.
  - destruct (String.eqb_spec interfacename "ikfast") as [e | Hne].
    + destruct (IStream.extract_string sinput "") as [ikfastname s1].
      destruct (IStream.ok s1); [ | discriminate H ].
      destruct (IStream.extract_real num_get s1 IkFastSolvers.freeinc_default)
        as [freeinc s2].
      destruct (CreateIkSolver ikfastname freeinc penv); discriminate H.
    + destruct (IStream.extract_real num_get sinput IkFastSolvers.freeinc_default)
        as [freeinc sinput'].
      repeat match type of H with
             | context [String.eqb interfacename ?n] =>
                 destruct (String.eqb_spec interfacename n);
                   [ cbn in H; injection H as H; subst; cbn;
                     repeat split; solve [ discriminate | tauto ] | ]
             end.
      discriminate H.
  - discriminate H.
Qed.

(** X7: the generic ["ikfast"] solver form gives the null pointer when no
    library name can be read, that is when the stream is not good or holds
    nothing but whitespace. *)
Theorem generic_form_needs_a_name :
  forall (sinput : IStream.istream) (penv : option Env),
    IStream.good sinput = false \/ IkFastSolvers.nothing_left sinput = true ->
    fst (IkFastSolvers.CreateInterfaceValidated
           Env num_get kernel LibrarySolver CreateIkSolver
           PT_InverseKinematicsSolver "ikfast" sinput penv) = None.
Proof.
  intros sinput penv H.
  unfold IkFastSolvers.CreateInterfaceValidated.
  cbn [String.eqb Ascii.eqb Bool.eqb].
  unfold IStream.extract_string, IStream.sentry.
  destruct (IStream.good sinput) eqn:Hgood.
  - destruct H as [H | H]; [ discriminate H | ].
    unfold IkFastSolvers.nothing_left in H. rewrite H. reflexivity.
  - reflexivity.
Qed.

(** X8: for every interface type other than the solver type the factory
    does not read from the stream: it comes back as it was passed. *)
Theorem other_types_leave_the_stream :
  forall (type : InterfaceType) (interfacename : string)
         (sinput : IStream.istream) (penv : option Env),
    type <> PT_InverseKinematicsSolver ->
    snd (IkFastSolvers.CreateInterfaceValidated
           Env num_get kernel LibrarySolver CreateIkSolver
           type interfacename sinput penv) = sinput.
Proof.
  intros type interfacename sinput penv Hty.
  unfold IkFastSolvers.CreateInterfaceValidated.
  destruct type as [ | | tag].
  - destruct (String.eqb interfacename "ikfast"); reflexivity.
  - contradiction.
  - reflexivity.
Qed.

(** X9: when a mechanism-specific key does carry text after the name, on a
    good stream, the solver's increment is what the numeric conversion
    stores, started after the leading whitespace with the default 0.04 as
    the current value. *)
Theorem explicit_increment_is_converted :
  forall (interfacename : string) (sinput : IStream.istream) (penv : option Env),
    In interfacename (IkFastSolvers.registered PT_InverseKinematicsSolver) ->
    interfacename <> "ikfast" ->
    IStream.good sinput = true ->
    IkFastSolvers.nothing_left sinput = false ->
    IkFastSolvers.increment_of Env LibrarySolver
      (fst (IkFastSolvers.CreateInterfaceValidated
              Env num_get kernel LibrarySolver CreateIkSolver
              PT_InverseKinematicsSolver interfacename sinput penv))
    = Some (fst (fst (num_get (IStream.skipws (IStream.buf sinput)) (4 # 100)))).
Proof.
  intros interfacename sinput penv Hin Hne Hgood Hleft.
  unfold IkFastSolvers.nothing_left in Hleft.
  unfold IkFastSolvers.CreateInterfaceValidated.
  unfold IStream.extract_real, IStream.sentry.
  rewrite Hgood, Hleft. cbn [IStream.buf].
  change IkFastSolvers.freeinc_default with (4 # 100).
  destruct (num_get (IStream.skipws (IStream.buf sinput)) (4 # 100))
    as [[v rest] converted].
  cbn [fst].
  destruct (String.eqb_spec interfacename "ikfast") as [e | _]; [ contradiction | ].
  simpl in Hin.
  repeat (destruct Hin as [Hin | Hin];
          [ try congruence; subst interfacename; reflexivity | ]).
  contradiction.
Qed.

End IkFastFactory.

Section CopyLoop.




End CopyLoop.

Section Registration.

(** X11: [GetPluginAttributesValidated] only appends: for every interface
    type the names already in the record stay, in order, followed by the
    names the plugin registers for that type; a type it registers nothing
    for is left as it was. *)
Theorem GetPluginAttributesValidated_appends :
  forall (info : PLUGININFO) (t : InterfaceType),
    interfacenames (IkFastSolvers.GetPluginAttributesValidated info) t
    = (interfacenames info t ++ IkFastSolvers.registered t)%list
    /\ forall tag : Z,
         interfacenames (IkFastSolvers.GetPluginAttributesValidated info) (PT_Other tag)
         = interfacenames info (PT_Other tag).
Proof.
  intros info t. split.
  - destruct t as [ | | tag]; cbn;
      repeat rewrite <- app_assoc; try rewrite app_nil_r; reflexivity.
  - intros tag. reflexivity.
Qed.

End Registration.

(** ** rmanipulation: how the factory reads a name *)

Section NameReading.

Lemma isspace_tolower : forall c : ascii, IStream.isspace (IStream.tolower c) = IStream.isspace c.
Proof. intros [[] [] [] [] [] [] [] []]; reflexivity. Qed.

Lemma tolower_idempotent : forall c : ascii, IStream.tolower (IStream.tolower c) = IStream.tolower c.
Proof. intros [[] [] [] [] [] [] [] []]; reflexivity. Qed.

Lemma transform_tolower_idempotent :
  forall s : string,
    IStream.transform_tolower (IStream.transform_tolower s) = IStream.transform_tolower s.
Proof.
  induction s as [ | c s IH]; simpl.
  - reflexivity.
  - rewrite tolower_idempotent, IH. reflexivity.
Qed.

Lemma skipws_tolower :
  forall s : string,
    IStream.skipws (IStream.transform_tolower s) = IStream.transform_tolower (IStream.skipws s).
Proof.
  induction s as [ | c s IH]; simpl.
  - reflexivity.
  - rewrite isspace_tolower. destruct (IStream.isspace c); [ exact IH | reflexivity ].
Qed.

Lemma take_word_tolower :
  forall s : string,
    IStream.take_word (IStream.transform_tolower s)
    = (IStream.transform_tolower (fst (IStream.take_word s)),
       IStream.transform_tolower (snd (IStream.take_word s))).
Proof.
  induction s as [ | c s IH]; simpl.
  - reflexivity.
  - rewrite isspace_tolower. destruct (IStream.isspace c); [ reflexivity | ].
    rewrite IH. destruct (IStream.take_word s) as [w rest]. reflexivity.
Qed.

Lemma is_empty_tolower :
  forall s : string, IStream.is_empty (IStream.transform_tolower s) = IStream.is_empty s.
Proof. intros [ | c s]; reflexivity. Qed.

(** The first word of a string, as [ss >> interfacename] on a fresh stream
    finds it. *)
Lemma first_word_read :
  forall name : string,
    fst (IStream.extract_string (IStream.stringstream name) "")
    = fst (IStream.take_word (IStream.skipws name)).
Proof.
  intros name. unfold IStream.extract_string, IStream.sentry, IStream.stringstream.
  cbn [IStream.good IStream.eofbit IStream.failbit IStream.buf negb andb].
  destruct (IStream.skipws name) as [ | c r] eqn:E.
  - reflexivity.
  - cbn [IStream.is_empty IStream.buf].
    destruct (IStream.take_word (String c r)) as [w rest]. reflexivity.
Qed.

Lemma requested_first_word :
  forall name : string,
    RManipulation.requested name
    = IStream.transform_tolower (fst (IStream.take_word (IStream.skipws name))).
Proof. intros name. unfold RManipulation.requested. rewrite first_word_read. reflexivity. Qed.

Lemma requested_tolower :
  forall name : string,
    RManipulation.requested (IStream.transform_tolower name) = RManipulation.requested name.
Proof.
  intros name. rewrite !requested_first_word.
  rewrite skipws_tolower, take_word_tolower. cbn [fst].
  apply transform_tolower_idempotent.
Qed.

Lemma skipws_leading :
  forall ws s : string,
    IStream.all_space ws = true -> IStream.skipws (ws ++ s) = IStream.skipws s.
Proof.
  induction ws as [ | c ws IH]; intros s H; simpl in *.
  - reflexivity.
  - apply andb_true_iff in H. destruct H as [Hc Hws].
    rewrite Hc. apply IH. exact Hws.
Qed.

Lemma take_word_whole :
  forall w tail : string,
    IStream.no_space w = true ->
    match tail with EmptyString => true | String c _ => IStream.isspace c end = true ->
    IStream.take_word (w ++ tail) = (w, tail).
Proof.
  induction w as [ | c w IH]; intros tail Hw Htail; simpl in *.
  - destruct tail as [ | c r]; [ reflexivity | ]. simpl. rewrite Htail. reflexivity.
  - apply andb_true_iff in Hw. destruct Hw as [Hc Hw].
    apply negb_true_iff in Hc. rewrite Hc.
    rewrite (IH tail Hw Htail). reflexivity.
Qed.

Lemma append_empty : forall s : string, s ++ "" = s.
Proof.
  induction s as [ | c s IH]; simpl; [ reflexivity | rewrite IH; reflexivity ].
Qed.

Lemma requested_of_word :
  forall ws w tail : string,
    IStream.all_space ws = true ->
    IStream.no_space w = true ->
    w <> "" ->
    match tail with EmptyString => true | String c _ => IStream.isspace c end = true ->
    RManipulation.requested (ws ++ w ++ tail) = IStream.transform_tolower w.
Proof.
  intros ws w tail Hws Hw Hne Htail.
  rewrite requested_first_word, (skipws_leading ws _ Hws).
  destruct w as [ | c w]; [ contradiction | ].
  assert (Hskip : IStream.skipws (String c w ++ tail) = String c w ++ tail).
  { simpl in Hw |- *. apply andb_true_iff in Hw. destruct Hw as [Hc _].
    apply negb_true_iff in Hc. rewrite Hc. reflexivity. }
  rewrite Hskip, (take_word_whole _ tail Hw Htail). reflexivity.
Qed.

End NameReading.

Section RManipulationFactory.

Variable Env : Type.
Variable RaveGetInterfaceHash : PluginType -> string.
Variable sizeof_PLUGININFO : Z.

(** The factory looks at a name only through its first word in lower
    case. *)
Lemma CreateInterface_by_requested :
  forall (type : PluginType) (n1 n2 pluginhash : string) (penv : option Env),
    RManipulation.requested n1 = RManipulation.requested n2 ->
    RManipulation.CreateInterface Env RaveGetInterfaceHash type n1 pluginhash penv
    = RManipulation.CreateInterface Env RaveGetInterfaceHash type n2 pluginhash penv.
Proof.
  intros type n1 n2 pluginhash penv H.
  unfold RManipulation.requested in H.
  unfold RManipulation.CreateInterface.
  destruct (IStream.extract_string (IStream.stringstream n1) "") as [w1 s1].
  destruct (IStream.extract_string (IStream.stringstream n2) "") as [w2 s2].
  cbn [fst] in H. rewrite H. reflexivity.
Qed.

(** X12: the plugin hash is checked before anything else: the call throws
    exactly when the hash differs from the one of the interface type, for
    every name and even with a null environment; with the right hash it
    returns, and a null environment then gives the null pointer for every
    type and name. *)
Theorem hash_is_checked_first :
  forall (type : PluginType) (name pluginhash : string) (penv : option Env),
    (RManipulation.CreateInterface Env RaveGetInterfaceHash type name pluginhash penv
     = Thrown "bad plugin hash"
     <-> pluginhash <> RaveGetInterfaceHash type)
    /\ (pluginhash = RaveGetInterfaceHash type ->
        exists r, RManipulation.CreateInterface Env RaveGetInterfaceHash
                    type name pluginhash penv = Returned r)
    /\ (pluginhash = RaveGetInterfaceHash type ->
        RManipulation.CreateInterface Env RaveGetInterfaceHash
          type name pluginhash None = Returned None).
Proof.
  intros type name pluginhash penv.
  assert (Hret : pluginhash = RaveGetInterfaceHash type ->
                 exists r, RManipulation.CreateInterface Env RaveGetInterfaceHash
                             type name pluginhash penv = Returned r).
  { intros Hh. unfold RManipulation.CreateInterface.
    rewrite Hh, String.eqb_refl. cbn [negb].
    destruct penv as [env | ]; [ | eexists; reflexivity ].
    destruct (IStream.extract_string (IStream.stringstream name) "") as [w ss].
    destruct type as [ | | tag]; try (eexists; reflexivity).
    repeat match goal with
           | |- context [String.eqb ?x ?s] =>
               destruct (String.eqb x s); [ eexists; reflexivity | ]
           end.
    eexists; reflexivity. }
  split; [ | split ].
  - split.
    + intros Hthrown Heq. destruct (Hret Heq) as [r Hr].
      rewrite Hr in Hthrown. discriminate Hthrown.
    + intros Hne. unfold RManipulation.CreateInterface.
      destruct (String.eqb_spec pluginhash (RaveGetInterfaceHash type)) as [e | _];
        [ contradiction | reflexivity ].
  - exact Hret.
  - intros Hh. unfold RManipulation.CreateInterface.
    rewrite Hh, String.eqb_refl. reflexivity.
Qed.

(** X13: with the right hash and an environment, the factory constructs an
    object exactly when the type is the problem-instance type and the name
    matches one of the registered names; which object is decided by that
    name: ["BaseManipulation"], ["TaskManipulation"], ["TaskCaging"] and
    ["VisualFeedback"] give their own problem, bound to the environment. *)
Theorem constructs_exactly_the_registered :
  forall (type : PluginType) (name pluginhash : string) (env : Env),
    pluginhash = RaveGetInterfaceHash type ->
    ((exists i, RManipulation.CreateInterface Env RaveGetInterfaceHash
                  type name pluginhash (Some env) = Returned (Some i))
     <-> (type = PT_ProblemInstance
          /\ exists reg, In reg (RManipulation.registered sizeof_PLUGININFO type)
                         /\ RManipulation.matches name reg))
    /\ (type = PT_ProblemInstance ->
        (RManipulation.matches name "BaseManipulation" ->
         RManipulation.CreateInterface Env RaveGetInterfaceHash
           type name pluginhash (Some env)
         = Returned (Some (RManipulation.BaseManipulation Env env)))
        /\ (RManipulation.matches name "TaskManipulation" ->
            RManipulation.CreateInterface Env RaveGetInterfaceHash
              type name pluginhash (Some env)
            = Returned (Some (RManipulation.TaskManipulation Env env)))
        /\ (RManipulation.matches name "TaskCaging" ->
            RManipulation.CreateInterface Env RaveGetInterfaceHash
              type name pluginhash (Some env)
            = Returned (Some (RManipulation.TaskCagingProblem Env env)))
        /\ (RManipulation.matches name "VisualFeedback" ->
            RManipulation.CreateInterface Env RaveGetInterfaceHash
              type name pluginhash (Some env)
            = Returned (Some (RManipulation.VisualFeedbackProblem Env env)))).
Proof.
  intros type name pluginhash env Hh.
  assert (Hkind : type = PT_ProblemInstance ->
            forall reg w i,
              IStream.transform_tolower reg = w ->
              (if String.eqb w "basemanipulation"
               then Returned (Some (RManipulation.BaseManipulation Env env))
               else if String.eqb w "taskmanipulation"
               then Returned (Some (RManipulation.TaskManipulation Env env))
               else if String.eqb w "taskcaging"
               then Returned (Some (RManipulation.TaskCagingProblem Env env))
               else if String.eqb w "visualfeedback"
               then Returned (Some (RManipulation.VisualFeedbackProblem Env env))
               else Returned None) = Returned (Some i) ->
              RManipulation.matches name reg ->
              RManipulation.CreateInterface Env RaveGetInterfaceHash
                type name pluginhash (Some env) = Returned (Some i)).
  { intros Hty reg w i Hw Hi Hm. subst type.
    unfold RManipulation.matches, RManipulation.requested in Hm.
    unfold RManipulation.CreateInterface.
    rewrite Hh, String.eqb_refl. cbn [negb].
    destruct (IStream.extract_string (IStream.stringstream name) "") as [w0 ss].
    cbn [fst] in Hm. rewrite Hm, Hw. exact Hi. }
  split.
  - split.
    + intros [i Hi].
      unfold RManipulation.CreateInterface in Hi.
      rewrite Hh, String.eqb_refl in Hi. cbn [negb] in Hi.
      pose proof (eq_refl (RManipulation.requested name)) as Hreq.
      unfold RManipulation.requested in Hreq at 1.
      destruct (IStream.extract_string (IStream.stringstream name) "") as [w ss].
      cbn [fst] in Hreq.
      destruct type as [ | | tag]; try discriminate Hi.
      split; [ reflexivity | ].
      rewrite (rmanip_registered_problems sizeof_PLUGININFO).
      unfold RManipulation.matches. rewrite <- Hreq.
      repeat match type of Hi with
             | context [String.eqb ?x ?s] =>
                 destruct (String.eqb_spec x s) as [e | _];
                   [ rewrite e;
                     first [ exists "BaseManipulation"; split; [ simpl; tauto | reflexivity ]
                           | exists "TaskManipulation"; split; [ simpl; tauto | reflexivity ]
                           | exists "TaskCaging"; split; [ simpl; tauto | reflexivity ]
                           | exists "VisualFeedback"; split; [ simpl; tauto | reflexivity ] ]
                   | ]
             end.
      discriminate Hi.
    + intros [Hty [reg [Hin Hm]]].
      subst type.
      rewrite (rmanip_registered_problems sizeof_PLUGININFO) in Hin.
      simpl in Hin.
      repeat (destruct Hin as [Hin | Hin];
              [ rewrite <- Hin in Hm;
                refine (ex_intro _ _ (Hkind eq_refl _ _ _ eq_refl _ Hm));
                reflexivity | ]).
      contradiction.
  - intros Hty. repeat split; intros Hm;
      refine (Hkind Hty _ _ _ eq_refl _ Hm); reflexivity.
Qed.

(** X14: letter case is ignored over the whole name: two names that agree
    once lowered get the same answer, whatever the type, hash and
    environment. *)
Theorem letter_case_is_ignored :
  forall (type : PluginType) (n1 n2 pluginhash : string) (penv : option Env),
    IStream.transform_tolower n1 = IStream.transform_tolower n2 ->
    RManipulation.CreateInterface Env RaveGetInterfaceHash type n1 pluginhash penv
    = RManipulation.CreateInterface Env RaveGetInterfaceHash type n2 pluginhash penv.
Proof.
  intros type n1 n2 pluginhash penv H.
  apply CreateInterface_by_requested.
  rewrite <- (requested_tolower n1), <- (requested_tolower n2), H.
  reflexivity.
Qed.

(** X15: only the first word of the name counts: whitespace before it and
    anything after the whitespace that ends it change nothing. *)
Theorem only_the_first_word_counts :
  forall (type : PluginType) (ws w tail pluginhash : string) (penv : option Env),
    IStream.all_space ws = true ->
    IStream.no_space w = true ->
    w <> "" ->
    match tail with EmptyString => true | String c _ => IStream.isspace c end = true ->
    RManipulation.CreateInterface Env RaveGetInterfaceHash
      type (ws ++ w ++ tail) pluginhash penv
    = RManipulation.CreateInterface Env RaveGetInterfaceHash type w pluginhash penv.
Proof.
  intros type ws w tail pluginhash penv Hws Hw Hne Htail.
  apply CreateInterface_by_requested.
  rewrite (requested_of_word ws w tail Hws Hw Hne Htail).
  pose proof (requested_of_word "" w "" eq_refl Hw Hne eq_refl) as Halone.
  simpl in Halone. rewrite append_empty in Halone.
  symmetry. exact Halone.
Qed.

(** X16: [GetPluginAttributes] succeeds exactly on a non-null record of the
    expected size; when it fails the record is left as it was; when it
    succeeds the four names are appended, in order, after the names the
    problem-instance type had, and every other type keeps its names. *)
Theorem GetPluginAttributes_checks_then_appends :
  forall (pinfo : option PLUGININFO) (size : Z),
    (fst (RManipulation.GetPluginAttributes sizeof_PLUGININFO pinfo size) = true
     <-> (pinfo <> None /\ size = sizeof_PLUGININFO))
    /\ (fst (RManipulation.GetPluginAttributes sizeof_PLUGININFO pinfo size) = false ->
        snd (RManipulation.GetPluginAttributes sizeof_PLUGININFO pinfo size) = pinfo)
    /\ (forall info : PLUGININFO,
           pinfo = Some info ->
           size = sizeof_PLUGININFO ->
           exists info' : PLUGININFO,
             snd (RManipulation.GetPluginAttributes sizeof_PLUGININFO pinfo size)
             = Some info'
             /\ interfacenames info' PT_ProblemInstance
                = (interfacenames info PT_ProblemInstance
                   ++ ["BaseManipulation"; "TaskManipulation";
                       "TaskCaging"; "VisualFeedback"])%list
             /\ forall t, t <> PT_ProblemInstance ->
                          interfacenames info' t = interfacenames info t).
Proof.
  intros pinfo size.
  unfold RManipulation.GetPluginAttributes.
  destruct pinfo as [info | ].
  - destruct (Z.eqb_spec size sizeof_PLUGININFO) as [e | n]; cbn [negb fst snd].
    + split; [ split; [ intros _; split; [ discriminate | exact e ] | reflexivity ] | ].
      split; [ discriminate | ].
      intros info0 Hinfo _. injection Hinfo as Hinfo. subst info0.
      eexists. split; [ reflexivity | ]. split.
      * cbn. repeat rewrite <- app_assoc. reflexivity.
      * intros t Ht. destruct t as [ | | tag]; [ contradiction | reflexivity | reflexivity ].
    + split; [ split; [ discriminate | intros [_ Hs]; contradiction ] | ].
      split; [ reflexivity | ].
      intros info0 _ Hs. contradiction.
  - cbn [fst snd].
    split; [ split; [ discriminate | intros [Hn _]; contradiction ] | ].
    split; [ reflexivity | ].
    intros info0 Hinfo. discriminate Hinfo.
Qed.

End RManipulationFactory.

(** ** ikfastsolvers: the generic form and the problem instance *)

Section IkFastOtherInterfaces.

Variable Env : Type.
Variable num_get : string -> dReal -> dReal * string * bool.
Variable kernel : IkFastSolvers.Mechanism -> IkFastSolvers.KernelInfo.
Variable LibrarySolver : Type.
Variable CreateIkSolver : string -> dReal -> option Env -> option LibrarySolver.

Lemma skipws_head :
  forall (s r : string) (c : ascii),
    IStream.skipws s = String c r -> IStream.isspace c = false.
Proof.
  induction s as [ | a s IH]; intros r c H; simpl in H.
  - discriminate H.
  - destruct (IStream.isspace a) eqn:Ha.
    + exact (IH r c H).
    + injection H as Hc Hr. subst a. exact Ha.
Qed.

Lemma take_word_no_space :
  forall s : string, IStream.no_space (fst (IStream.take_word s)) = true.
Proof.
  induction s as [ | c s IH]; simpl.
  - reflexivity.
  - destruct (IStream.isspace c) eqn:Hc; [ reflexivity | ].
    destruct (IStream.take_word s) as [w rest]. simpl in *.
    rewrite Hc. exact IH.
Qed.

(** A successful [is >> str] stores a word: not empty, free of
    whitespace. *)
Lemma extract_string_word :
  forall (s s1 : IStream.istream) (w : string),
    IStream.extract_string s "" = (w, s1) ->
    IStream.ok s1 = true ->
    w <> "" /\ IStream.no_space w = true.
Proof.
  intros s s1 w H Hok.
  unfold IStream.extract_string, IStream.sentry in H.
  destruct (IStream.good s).
  - destruct (IStream.skipws (IStream.buf s)) as [ | c r] eqn:E;
      cbn [IStream.is_empty IStream.buf] in H.
    + injection H as Hw Hs. subst s1. discriminate Hok.
    + pose proof (skipws_head _ _ _ E) as Hc.
      pose proof (take_word_no_space (String c r)) as Hns.
      destruct (IStream.take_word (String c r)) as [w0 rest] eqn:Et.
      injection H as Hw Hs. subst w0. cbn [fst] in Hns.
      split; [ | exact Hns ].
      simpl in Et. rewrite Hc in Et.
      destruct (IStream.take_word r) as [w1 rest1].
      injection Et as Hw _. subst w. discriminate.
  - injection H as Hw Hs. subst s1. discriminate Hok.
Qed.

(** X17: a solver from the loaded libraries is returned only for the solver
    interface type under the name ["ikfast"], and it is the one
    [CreateIkSolver] gives for the first word of the stream, a word that is
    not empty and free of whitespace, with the environment passed in. *)
Theorem library_solver_comes_from_the_stream :
  forall (type : InterfaceType) (interfacename : string)
         (sinput : IStream.istream) (penv : option Env) (x : LibrarySolver),
    fst (IkFastSolvers.CreateInterfaceValidated
           Env num_get kernel LibrarySolver CreateIkSolver
           type interfacename sinput penv)
    = Some (IkFastSolvers.of_LibrarySolver Env LibrarySolver x) ->
    type = PT_InverseKinematicsSolver
    /\ interfacename = "ikfast"
    /\ exists (ikfastname : string) (freeinc : dReal),
         ikfastname = fst (IStream.extract_string sinput "")
         /\ ikfastname <> ""
         /\ IStream.no_space ikfastname = true
         /\ CreateIkSolver ikfastname freeinc penv = Some x.
Proof.
  intros type interfacename sinput penv x H.
  unfold IkFastSolvers.CreateInterfaceValidated in H.
  destruct type as [ | | tag].
  - destruct (String.eqb interfacename "ikfast"); discriminate H.
  - split; [ reflexivity | ].
    destruct (String.eqb_spec interfacename "ikfast") as [e | Hne].
    + split; [ exact e | ].
      destruct (IStream.extract_string sinput "") as [ikfastname s1] eqn:Ex.
      destruct (IStream.ok s1) eqn:Hok; [ | discriminate H ].
      destruct (IStream.extract_real num_get s1 IkFastSolvers.freeinc_default)
        as [freeinc s2].
      destruct (CreateIkSolver ikfastname freeinc penv) as [y | ] eqn:Ec;
        [ | discriminate H ].
      cbn [fst] in H. injection H as Hy. subst y.
      destruct (extract_string_word sinput s1 ikfastname Ex Hok) as [Hne Hns].
      exists ikfastname, freeinc. repeat split; assumption.
    + exfalso.
      destruct (IStream.extract_real num_get sinput IkFastSolvers.freeinc_default)
        as [freeinc sinput'].
      repeat match type of H with
             | context [String.eqb interfacename ?n] =>
                 destruct (String.eqb interfacename n); [ discriminate H | ]
             end.
      discriminate H.
  - discriminate H.
Qed.

(** X18: the [IKFastProblem] is returned exactly for the problem-instance
    type under the name ["ikfast"], bound to the environment passed in,
    whatever the stream holds. *)
Theorem problem_instance_only_as_ikfast :
  forall (type : InterfaceType) (interfacename : string)
         (sinput : IStream.istream) (penv p : option Env),
    fst (IkFastSolvers.CreateInterfaceValidated
           Env num_get kernel LibrarySolver CreateIkSolver
           type interfacename sinput penv)
    = Some (IkFastSolvers.of_IKFastProblem Env LibrarySolver p)
    <-> (type = PT_ProblemInstance /\ interfacename = "ikfast" /\ p = penv).
Proof.
  intros type interfacename sinput penv p.
  unfold IkFastSolvers.CreateInterfaceValidated.
  split.
  - intros H. destruct type as [ | | tag].
    + destruct (String.eqb_spec interfacename "ikfast") as [e | _];
        [ | discriminate H ].
      cbn [fst] in H. injection H as Hp. auto.
    + exfalso.
      destruct (String.eqb interfacename "ikfast").
      * destruct (IStream.extract_string sinput "") as [ikfastname s1].
        destruct (IStream.ok s1); [ | discriminate H ].
        destruct (IStream.extract_real num_get s1 IkFastSolvers.freeinc_default)
          as [freeinc s2].
        destruct (CreateIkSolver ikfastname freeinc penv); discriminate H.
      * destruct (IStream.extract_real num_get sinput IkFastSolvers.freeinc_default)
          as [freeinc sinput'].
        repeat match type of H with
               | context [String.eqb interfacename ?n] =>
                   destruct (String.eqb interfacename n); [ discriminate H | ]
               end.
        discriminate H.
    + discriminate H.
  - intros [Hty [Hname Hp]]. subst type interfacename p. reflexivity.
Qed.

End IkFastOtherInterfaces.

(** ** The further properties at work on concrete inputs *)

Section FurtherInstances.

Local Open Scope Q_scope.

Lemma registered_solver_is_constructed_witness :
  exists s : IkFastSolvers.IkFastSolver unit,
    fst (Demo.ikfast_create PT_InverseKinematicsSolver "pumaikfast"
           (IStream.stringstream " zero point one") (Some tt))
    = Some (IkFastSolvers.of_IkFastSolver unit (string * dReal) s)
    /\ IkFastSolvers.mechanism_name (IkFastSolvers._pfnik unit s) = "pumaikfast"
    /\ IkFastSolvers._penv unit s = Some tt.
Proof.
  destruct (registered_solver_is_constructed
              unit IStream.decimal_num_get Demo.kernel_table
              (string * dReal) Demo.library_create
              "pumaikfast" (IStream.stringstream " zero point one") (Some tt))
    as [s [Hs [Hname [Henv _]]]].
  - simpl. tauto.
  - discriminate.
  - exists s. repeat split; assumption.
Defined.

Lemma constructed_solver_matches_name_witness :
  PT_InverseKinematicsSolver = PT_InverseKinematicsSolver
  /\ "ikfast_katana5d" = IkFastSolvers.mechanism_name IkFastSolvers.katana5d
  /\ "ikfast_katana5d" <> "ikfast"
  /\ In "ikfast_katana5d" (IkFastSolvers.registered PT_InverseKinematicsSolver).
Proof.
  exact (constructed_solver_matches_name
           unit IStream.decimal_num_get Demo.kernel_table
           (string * dReal) Demo.library_create
           PT_InverseKinematicsSolver "ikfast_katana5d"
           (IStream.stringstream "") None
           {| IkFastSolvers._pfnik := IkFastSolvers.katana5d;
              IkFastSolvers._vfreeparams := [2%Z];
              IkFastSolvers._fFreeInc := 4 # 100;
              IkFastSolvers._nTotalJoints := 7%Z;
              IkFastSolvers._iktype := 1%Z;
              IkFastSolvers._kinematicshash := "f00d";
              IkFastSolvers._penv := None |}
           eq_refl).
Defined.

Lemma generic_form_needs_a_name_witness :
  fst (Demo.ikfast_create PT_InverseKinematicsSolver "ikfast"
         (IStream.stringstream "   ") (Some tt)) = None.
Proof.
  apply (generic_form_needs_a_name
           unit IStream.decimal_num_get Demo.kernel_table
           (string * dReal) Demo.library_create).
  right. reflexivity.
Defined.

Lemma other_types_leave_the_stream_witness :
  snd (Demo.ikfast_create PT_ProblemInstance "ikfast"
         (IStream.stringstream "mylib 0.5") None)
  = IStream.stringstream "mylib 0.5".
Proof.
  apply (other_types_leave_the_stream
           unit IStream.decimal_num_get Demo.kernel_table
           (string * dReal) Demo.library_create).
  discriminate.
Defined.

Lemma explicit_increment_is_converted_witness :
  IkFastSolvers.increment_of unit (string * dReal)
    (fst (Demo.ikfast_create PT_InverseKinematicsSolver "pa10ikfast"
            (IStream.stringstream "  0.25 rest") None))
  = Some (fst (fst (IStream.decimal_num_get "0.25 rest" (4 # 100)))).
Proof.
  apply (explicit_increment_is_converted
           unit IStream.decimal_num_get Demo.kernel_table
           (string * dReal) Demo.library_create
           "pa10ikfast" (IStream.stringstream "  0.25 rest") None).
  - simpl. tauto.
  - discriminate.
  - reflexivity.
  - reflexivity.
Defined.


Lemma hash_is_checked_first_witness :
  Demo.rmanip_create PT_ProblemInstance "BaseManipulation" "decaf" None
  = Thrown "bad plugin hash"
  /\ Demo.rmanip_create PT_ProblemInstance "BaseManipulation" "c0ffee" None
     = Returned None.
Proof.
  split.
  - apply (proj1 (hash_is_checked_first unit Demo.interface_hash
                    PT_ProblemInstance "BaseManipulation" "decaf" None)).
    discriminate.
  - apply (proj2 (proj2 (hash_is_checked_first unit Demo.interface_hash
                           PT_ProblemInstance "BaseManipulation" "c0ffee" None))).
    reflexivity.
Defined.

Lemma constructs_exactly_the_registered_witness :
  Demo.rmanip_create PT_ProblemInstance " taskCAGING robot1" "c0ffee" (Some tt)
  = Returned (Some (RManipulation.TaskCagingProblem unit tt)).
Proof.
  pose proof (constructs_exactly_the_registered unit Demo.interface_hash 64%Z
                PT_ProblemInstance " taskCAGING robot1" "c0ffee" tt eq_refl)
    as [_ Hkind].
  destruct (Hkind eq_refl) as [_ [_ [Hcaging _]]].
  apply Hcaging. reflexivity.
Defined.

Lemma letter_case_is_ignored_witness :
  Demo.rmanip_create PT_ProblemInstance "VISUALFEEDBACK" "c0ffee" (Some tt)
  = Demo.rmanip_create PT_ProblemInstance "VisualFeedback" "c0ffee" (Some tt).
Proof.
  apply (letter_case_is_ignored unit Demo.interface_hash
           PT_ProblemInstance "VISUALFEEDBACK" "VisualFeedback" "c0ffee" (Some tt)).
  reflexivity.
Defined.

Lemma only_the_first_word_counts_witness :
  Demo.rmanip_create PT_ProblemInstance "  TaskManipulation robot1 arg" "c0ffee" (Some tt)
  = Demo.rmanip_create PT_ProblemInstance "TaskManipulation" "c0ffee" (Some tt).
Proof.
  apply (only_the_first_word_counts unit Demo.interface_hash
           PT_ProblemInstance "  " "TaskManipulation" " robot1 arg" "c0ffee" (Some tt)).
  - reflexivity.
  - reflexivity.
  - discriminate.
  - reflexivity.
Defined.

Lemma GetPluginAttributes_checks_then_appends_witness :
  fst (RManipulation.GetPluginAttributes 64 (Some PLUGININFO_new) 64) = true
  /\ snd (RManipulation.GetPluginAttributes 64 (Some PLUGININFO_new) 32)
     = Some PLUGININFO_new.
Proof.
  split.
  - apply (proj2 (proj1 (GetPluginAttributes_checks_then_appends 64
                           (Some PLUGININFO_new) 64))).
    split; [ discriminate | reflexivity ].
  - apply (proj1 (proj2 (GetPluginAttributes_checks_then_appends 64
                           (Some PLUGININFO_new) 32))).
    reflexivity.
Defined.

Lemma library_solver_comes_from_the_stream_witness :
  PT_InverseKinematicsSolver = PT_InverseKinematicsSolver
  /\ "ikfast" = "ikfast"
  /\ exists (ikfastname : string) (freeinc : dReal),
       ikfastname = fst (IStream.extract_string (IStream.stringstream " mylib 0.5") "")
       /\ ikfastname <> ""
       /\ IStream.no_space ikfastname = true
       /\ Demo.library_create ikfastname freeinc (Some tt)
          = Some ("mylib", inject_Z 0 + inject_Z 5 / inject_Z (10 ^ 1)).
Proof.
  exact (library_solver_comes_from_the_stream
           unit IStream.decimal_num_get Demo.kernel_table
           (string * dReal) Demo.library_create
           PT_InverseKinematicsSolver "ikfast"
           (IStream.stringstream " mylib 0.5") (Some tt)
           ("mylib", inject_Z 0 + inject_Z 5 / inject_Z (10 ^ 1))
           eq_refl).
Defined.

Lemma problem_instance_only_as_ikfast_witness :
  fst (Demo.ikfast_create PT_ProblemInstance "ikfast"
         (IStream.stringstream "anything") (Some tt))
  = Some (IkFastSolvers.of_IKFastProblem unit (string * dReal) (Some tt)).
Proof.
  apply (proj2 (problem_instance_only_as_ikfast
                  unit IStream.decimal_num_get Demo.kernel_table
                  (string * dReal) Demo.library_create
                  PT_ProblemInstance "ikfast"
                  (IStream.stringstream "anything") (Some tt) (Some tt))).
  repeat split.
Defined.

End FurtherInstances.
